(** * Science Jeopardy: a shallow embedding of [science_jeopardy.py]

    The script is a Streamlit page: every interaction re-runs [main] from
    the top against a per-browser-session dictionary [st.session_state].
    The embedding follows that shape.

    - Python objects are the inductive type [pyval] (the values the JSON
      decoder can produce, which are also the values the script stores).
    - A script run is a computation in the monad [M]: it reads and writes a
      [world] (session dictionary, rendered page, file system, clock,
      generator state, the buttons pressed for this run) and either returns
      or raises a Python exception.
    - The two library calls whose code is not part of the script,
      [json.load] and [random.sample], form the interface [PyLib]; the script
      is verified against every implementation of that interface, and one
      implementation (selection from a shrinking pool, the strategy CPython
      uses for small populations) is given at the end of the file.

    Two idealisations are made throughout.  Python floats are exact
    rationals ([Q]): the rounding of binary64 arithmetic and the non-finite
    floats are not modelled.  Strings are byte strings.  Interpolated values in f-strings are kept as
    unrendered pieces ([Fmt v]) except for the widget keys [q_<i>], which are
    real strings because they index the session dictionary. *)

From Stdlib Require Import QArith Qround.
From stdpp Require Import gmap strings list pretty.

#[local] Set Warnings "-register-all".
#[local] Open Scope Z_scope.
#[local] Open Scope nat_scope.

(** ** Python values *)

Inductive pyval :=
| PNone
| PBool (b : bool)
| PInt (n : Z)
| PFloat (x : Q)
| PStr (s : string)
| PList (xs : list pyval)
| PDict (kvs : list (string * pyval)).

(** A dict is kept as its items in insertion order; a decoder produces each
    key once. *)
Fixpoint dict_lookup (k : string) (kvs : list (string * pyval)) : option pyval :=
  match kvs with
  | [] => None
  | (k', v) :: rest => if String.eqb k k' then Some v else dict_lookup k rest
  end.

(** [bool] is a subclass of [int], and ints and floats compare by value. *)
Definition numeric (v : pyval) : option Q :=
  match v with
  | PBool b => Some (if b then 1%Q else 0%Q)
  | PInt n => Some (inject_Z n)
  | PFloat x => Some x
  | _ => None
  end.

(** Python's [==] on these values. *)
Fixpoint py_eq (a b : pyval) {struct a} : bool :=
  match a, b with
  | PNone, PNone => true
  | PStr s, PStr t => String.eqb s t
  | PList xs, PList ys =>
      (fix go (xs ys : list pyval) {struct xs} : bool :=
         match xs, ys with
         | [], [] => true
         | x :: xs', y :: ys' => py_eq x y && go xs' ys'
         | _, _ => false
         end) xs ys
  | PDict m1, PDict m2 =>
      Nat.eqb (length m1) (length m2) &&
      (fix go (m : list (string * pyval)) {struct m} : bool :=
         match m with
         | [] => true
         | (k, v) :: m' =>
             match dict_lookup k m2 with
             | Some v' => py_eq v v'
             | None => false
             end && go m'
         end) m1
  | _, _ =>
      match numeric a, numeric b with
      | Some x, Some y => Qeq_bool x y
      | _, _ => false
      end
  end.

(** Truth value testing, as in [if not bank] and [if ...exam_started]. *)
Definition truthy (v : pyval) : bool :=
  match v with
  | PNone => false
  | PBool b => b
  | PInt n => negb (Z.eqb n 0)
  | PFloat x => negb (Qeq_bool x 0)
  | PStr s => negb (String.eqb s "")
  | PList xs => match xs with [] => false | _ => true end
  | PDict kvs => match kvs with [] => false | _ => true end
  end.

(** ** Exceptions and outcomes *)

Inductive exn :=
| FileNotFoundError
| JSONDecodeError
| KeyError (k : string)
| TypeError
| AttributeError (name : string)
| ValueError
| ZeroDivisionError
| RerunException.

Inductive outcome (A : Type) :=
| Return (a : A)
| Raise (e : exn).
Arguments Return {A} a.
Arguments Raise {A} e.

(** [q[k]] with a string key. *)
Definition getitem (q : pyval) (k : string) : outcome pyval :=
  match q with
  | PDict kvs =>
      match dict_lookup k kvs with
      | Some v => Return v
      | None => Raise (KeyError k)
      end
  | _ => Raise TypeError
  end.

(** [q.get(k, d)]. *)
Definition dict_get (q : pyval) (k : string) (d : pyval) : outcome pyval :=
  match q with
  | PDict kvs => Return (default d (dict_lookup k kvs))
  | _ => Raise (AttributeError "get")
  end.

(** Iteration ([for ... in v]) and [len(v)].  The script only iterates over
    the stored question list; strings and dicts are iterable too. *)
Fixpoint chars (s : string) : list pyval :=
  match s with
  | EmptyString => []
  | String c s' => PStr (String c EmptyString) :: chars s'
  end.

Definition py_iter (v : pyval) : outcome (list pyval) :=
  match v with
  | PList xs => Return xs
  | PStr s => Return (chars s)
  | PDict kvs => Return (map (λ kv, PStr kv.1) kvs)
  | _ => Raise TypeError
  end.

Definition py_len (v : pyval) : outcome nat :=
  match v with
  | PList xs => Return (length xs)
  | PStr s => Return (String.length s)
  | PDict kvs => Return (length kvs)
  | _ => Raise TypeError
  end.

(** [enumerate(xs)], with the counter that the proofs generalise over. *)
Fixpoint enumerate_from {A} (i : nat) (xs : list A) : list (nat * A) :=
  match xs with
  | [] => []
  | x :: xs' => (i, x) :: enumerate_from (S i) xs'
  end.

Definition enumerate {A} (xs : list A) : list (nat * A) := enumerate_from 0 xs.

(** Arithmetic the script performs.  [x - v] for a float [x]; [v + n] for an
    int [n]; [a / b] on ints is true division and raises on a zero divisor. *)
Definition float_sub (x : Q) (v : pyval) : outcome Q :=
  match numeric v with
  | Some y => Return (x - y)%Q
  | None => Raise TypeError
  end.

Definition add_int (v : pyval) (n : Z) : outcome Q :=
  match numeric v with
  | Some y => Return (y + inject_Z n)%Q
  | None => Raise TypeError
  end.

Definition true_div (a b : nat) : outcome Q :=
  match b with
  | O => Raise ZeroDivisionError
  | S _ => Return (inject_Z (Z.of_nat a) / inject_Z (Z.of_nat b))%Q
  end.

Definition Qgt_bool (x y : Q) : bool := negb (Qle_bool x y).

(** The number of tenths that the format [:.1f] displays: the nearest one,
    ties to the even digit. *)
Definition fixed1 (x : Q) : Z :=
  let t := (x * 10)%Q in
  let lo := Qfloor t in
  match (t - inject_Z lo ?= 1 # 2)%Q with
  | Lt => lo
  | Gt => (lo + 1)%Z
  | Eq => if Z.even lo then lo else (lo + 1)%Z
  end.

(** ** The rendered page *)

(** A string with interpolations: literal text and the interpolated
    values. *)
Inductive piece :=
| Lit (s : string)
| Fmt (v : pyval)
| Fmt1f (x : Q).

Abbreviation text := (list piece).

Definition newline : string := String (Ascii.ascii_of_nat 10) "".

Inductive container :=
| Col1
| Col2
| Sidebar
| Form (key : string)
| Expander (label : text) (expanded : bool)
| ColScore1
| ColScore2.

Inductive element :=
| StSetPageConfig (page_title page_icon layout : string)
| StTitle (t : text)
| StCaption (t : text)
| StHeader (t : text)
| StMarkdown (t : text)
| StInfo (t : text)
| StError (t : text)
| StWarning (t : text)
| StSuccess (t : text)
| StWrite (t : text)
| StBalloons
| StMetric (label : string) (value : text)
| StRadio (label : string) (options : pyval) (key : string)
| StButton (label : string)
| StFormSubmitButton (label : string)
| ComponentsHtml (target_time : Q)
| Within (c : container) (body : list element).

(** ** The libraries the script calls *)

(** [json_loads] is the decoder behind [json.load] ([None] stands for
    [JSONDecodeError]).  [sample_positions g n k] are the positions that
    [random.sample] picks in a population of [n] items for a sample of [k],
    with the generator state it leaves; the three laws are the documented
    contract of sampling without replacement. *)
Class PyLib := {
  rng : Type;
  json_loads : string → option pyval;
  sample_positions : rng → nat → nat → list nat * rng;
  sample_positions_length g n k :
    k ≤ n → length (sample_positions g n k).1 = k;
  sample_positions_NoDup g n k :
    k ≤ n → NoDup (sample_positions g n k).1;
  sample_positions_lt g n k :
    k ≤ n → Forall (λ i, i < n) (sample_positions g n k).1
}.

(** ** Configuration (lines 8-10) *)

Record config := Config {
  TEST_DURATION_MINUTES : Z;
  QUESTIONS_PER_TEST : nat;
  QUESTION_FILE : string
}.

Definition source_config : config :=
  {| TEST_DURATION_MINUTES := 30;
     QUESTIONS_PER_TEST := 30;
     QUESTION_FILE := "questions.json" |}.

(** ** Worlds and the script monad *)

Record world `{PyLib} := World {
  session_state : gmap string pyval;
  page : list element;
  files : gmap string string;
  clock : Q;
  gen : rng;
  pressed : gset string
}.

Definition M `{PyLib} (A : Type) : Type := world → outcome A * world.

#[global] Instance M_ret `{PyLib} : MRet M := λ A a w, (Return a, w).
#[global] Instance M_bind `{PyLib} : MBind M := λ A B f c w,
  match c w with
  | (Return a, w') => f a w'
  | (Raise e, w') => (Raise e, w')
  end.

Section Primitives.
Context `{lib : PyLib}.

Definition raise {A} (e : exn) : M A := λ w, (Raise e, w).

Definition lift {A} (o : outcome A) : M A := λ w, (o, w).

(** [try: body except ...: handler]; [handler e = None] when no clause
    matches [e], which then propagates. *)
Definition try_except {A} (body : M A) (handler : exn → option (M A)) : M A :=
  λ w, match body w with
       | (Return a, w') => (Return a, w')
       | (Raise e, w') =>
           match handler e with
           | Some h => h w'
           | None => (Raise e, w')
           end
       end.

Definition set_session_state (ss : gmap string pyval) (w : world) : world :=
  World _ ss (page w) (files w) (clock w) (gen w) (pressed w).
Definition set_page (p : list element) (w : world) : world :=
  World _ (session_state w) p (files w) (clock w) (gen w) (pressed w).
Definition set_gen (g : rng) (w : world) : world :=
  World _ (session_state w) (page w) (files w) (clock w) g (pressed w).

(** A call that renders an element. *)
Definition st (e : element) : M unit :=
  λ w, (Return tt, set_page (page w ++ [e]) w).

(** [with c: body]: what [body] renders goes into the container, also
    when [body] raises. *)
Definition within {A} (c : container) (body : M A) : M A :=
  λ w, let '(r, w') := body (set_page [] w) in
       (r, set_page (page w ++ [Within c (page w')]) w').

(** Attribute access, [k in st.session_state], [.get(k)], assignment. *)
Definition getattr (name : string) : M pyval :=
  λ w, match session_state w !! name with
       | Some v => (Return v, w)
       | None => (Raise (AttributeError name), w)
       end.

Definition contains (name : string) : M bool :=
  λ w, (Return (bool_decide (is_Some (session_state w !! name))), w).

Definition session_get (name : string) : M pyval :=
  λ w, (Return (default PNone (session_state w !! name)), w).

Definition setattr (name : string) (v : pyval) : M unit :=
  λ w, (Return tt, set_session_state (<[name := v]> (session_state w)) w).

(** [open(name, "r")] followed by reading the text.  A file is its text:
    the other ways in which opening or reading can fail (permissions, a
    directory, bytes that do not decode) are outside the model. *)
Definition open (name : string) : M string :=
  λ w, match files w !! name with
       | Some content => (Return content, w)
       | None => (Raise FileNotFoundError, w)
       end.

(** [json.load]: the decoded value, or [JSONDecodeError].  The other ways
    the decoder can fail on a text file ([ValueError] on an over-long
    integer, [RecursionError] on deep nesting) are not modelled: for a file
    that does not decode, the statements below describe the
    [JSONDecodeError] case. *)
Definition json_load (content : string) : M pyval :=
  match json_loads content with
  | Some v => mret v
  | None => raise JSONDecodeError
  end.

(** [random.sample(population, k)]: [ValueError] when the sample is
    larger than the population. *)
Definition random_sample (population : list pyval) (k : nat) : M (list pyval) :=
  λ w, if decide (k ≤ length population) then
         let '(idxs, g) := sample_positions (gen w) (length population) k in
         (Return (omap (λ i, population !! i) idxs), set_gen g w)
       else (Raise ValueError, w).

Definition time_time : M Q := λ w, (Return (clock w), w).

(** Buttons report whether they were pressed for this run. *)
Definition was_pressed (label : string) : M bool :=
  λ w, (Return (bool_decide (label ∈ pressed w)), w).

Definition st_button (label : string) : M bool :=
  st (StButton label) ;; was_pressed label.

(** The submit button of a form.  Streamlit records the button under a key
    of its own ([FormSubmitter:<form>-<label>]); the entry is not modelled,
    and no statement below speaks of keys other than the script's own and
    the widget keys [q_<i>]. *)
Definition st_form_submit_button (label : string) : M bool :=
  st (StFormSubmitButton label) ;; was_pressed label.

(** A radio group with [index=None]: its key enters the session
    dictionary holding [None] the first time it is rendered, and holds
    the chosen option afterwards.  Streamlit itself clears a stored value
    that is not among the options; that is not modelled, so the statements
    below rely on a stored response only where it is one the group offers. *)
Definition st_radio (label : string) (options : pyval) (key : string) : M pyval :=
  st (StRadio label options key) ;;
  present ← contains key;
  (if negb present then setattr key PNone else mret tt) ;;
  session_get key.

Definition st_rerun {A} : M A := raise RerunException.

(** [for x in xs: acc = body(x, acc)]. *)
Fixpoint for_each {A S} (xs : list A) (acc : S) (body : A → S → M S) : M S :=
  match xs with
  | [] => mret acc
  | x :: xs' => acc' ← body x acc; for_each xs' acc' body
  end.

End Primitives.

(** ** The script *)

Section Script.
Context `{lib : PyLib} (cfg : config).

(** The key [f"q_{i}"] of the radio group of question [i]. *)
Definition widget_key (i : nat) : string := "q_" +:+ pretty i.

(** Lines 14-29. *)
Definition load_questions_from_file : M (list pyval) :=
  try_except
    (content ← open (QUESTION_FILE cfg);
     data ← json_load content;
     match data with
     | PList questions => mret questions
     | _ =>
         st (StError [Lit "JSON file format is incorrect. Expected a list of questions."]) ;;
         mret []
     end)
    (λ e, match e with
          | FileNotFoundError => Some (
              st (StError [Lit "File '"; Lit (QUESTION_FILE cfg);
                           Lit "' not found! Please make sure it is in the same folder."]) ;;
              mret [])
          | JSONDecodeError => Some (
              st (StError [Lit "Error decoding '"; Lit (QUESTION_FILE cfg);
                           Lit "'. Please check the file syntax."]) ;;
              mret [])
          | _ => None
          end).

(** Lines 31-80; of the injected HTML only the interpolated
    [target_time] is kept. *)
Definition countdown_timer (minutes : Z) : M unit :=
  start_time ← getattr "start_time";
  match start_time with
  | PNone => mret tt
  | _ =>
      deadline ← lift (add_int start_time (minutes * 60));
      let target_time := (deadline * 1000)%Q in
      st (ComponentsHtml target_time)
  end.

(** Lines 82-89. *)
Definition initialize_session : M unit :=
  present ← contains "exam_started";
  (if negb present then setattr "exam_started" (PBool false) else mret tt) ;;
  present ← contains "selected_questions";
  (if negb present then setattr "selected_questions" (PList []) else mret tt) ;;
  present ← contains "start_time";
  (if negb present then setattr "start_time" PNone else mret tt).

(** Lines 91-100. *)
Definition start_test : M unit :=
  bank ← load_questions_from_file;
  if negb (truthy (PList bank)) then mret tt
  else
    let count := min (QUESTIONS_PER_TEST cfg) (length bank) in
    selected ← random_sample bank count;
    setattr "selected_questions" (PList selected) ;;
    now ← time_time;
    setattr "start_time" (PFloat now) ;;
    setattr "exam_started" (PBool true).

(** Lines 130-139: one question of the form. *)
Definition render_question (iq : nat * pyval) (_ : unit) : M unit :=
  let '(i, q) := iq in
  question ← lift (getitem q "question");
  st (StMarkdown [Lit "##### "; Fmt (PInt (Z.of_nat i + 1)); Lit ". "; Fmt question]) ;;
  options ← lift (getitem q "options");
  st_radio "Select Answer:" options (widget_key i) ;;
  st (StWrite [Lit ""]).

(** Lines 153-174: the body of the grading loop; [score] is the running
    count. *)
Definition grade_question (iq : nat * pyval) (score : nat) : M nat :=
  let '(i, q) := iq in
  user_val ← session_get (widget_key i);
  correct_val ← lift (getitem q "answer");
  let is_correct := py_eq user_val correct_val in
  let score := if is_correct then score + 1 else score in
  let header_icon := if is_correct then "✅" else "❌" in
  question ← lift (getitem q "question");
  within (Expander [Lit header_icon; Lit " Question "; Fmt (PInt (Z.of_nat i + 1));
                    Lit ": "; Fmt question] (negb is_correct))
    (if is_correct then
       st (StMarkdown [Lit ":green[**Correct!**] Your answer: **"; Fmt user_val; Lit "**"])
     else
       st (StMarkdown [Lit ":red[**Incorrect.**] You chose: "; Fmt user_val]) ;;
       st (StInfo [Lit "Correct Answer: **"; Fmt correct_val; Lit "**"]) ;;
       topic ← lift (dict_get q "topic" (PStr "General"));
       st (StCaption [Lit "Topic: "; Fmt topic])) ;;
  mret score.

(** Lines 185-190. *)
Definition tier_message (score : nat) : element :=
  if 25 <=? score then
    StSuccess [Lit "🏆 **Excellent work!** You are ready for the Science Olympiad!"]
  else if 15 <=? score then
    StWarning [Lit "⚠️ **Good effort!** Review the topics you missed and try again."]
  else
    StError [Lit "🛑 **Keep practicing.** You need a bit more study time."].

Definition late_banner : element :=
  StError [Lit "⏰ Time is up! Your test is marked as late."].

(** Lines 148-190: the grading loop and the score display. *)
Definition grading : M unit :=
  st StBalloons ;;
  st (StWrite [Lit "## 📝 Test Results"]) ;;
  questions ← getattr "selected_questions" ≫= (λ v, lift (py_iter v));
  score ← for_each (enumerate questions) 0 grade_question;
  total ← getattr "selected_questions" ≫= (λ v, lift (py_len v));
  ratio ← lift (true_div score total);
  let final_score_pct := (ratio * 100)%Q in
  within ColScore1
    (total ← getattr "selected_questions" ≫= (λ v, lift (py_len v));
     st (StMetric "Raw Score" [Fmt (PInt (Z.of_nat score)); Lit "/";
                               Fmt (PInt (Z.of_nat total))])) ;;
  within ColScore2
    (st (StMetric "Percentage" [Fmt1f final_score_pct; Lit "%"])) ;;
  st (tier_message score).

(** Lines 144-190: what a submission does. *)
Definition on_submit (is_late : bool) : M unit :=
  (if is_late then st late_banner else mret tt) ;;
  grading.

Definition welcome : text :=
  [Lit newline;
   Lit "            ### Welcome, Future Scientist! 👩‍🔬👨‍🔬"; Lit newline;
   Lit "            This app is designed to help you prepare for the **Science Olympiad Jeopardy Round 1**.";
   Lit newline;
   Lit "            *Click the button in the sidebar to begin!*"; Lit newline;
   Lit "            "].

(** Lines 104-199. *)
Definition main : M unit :=
  st (StSetPageConfig "Science Jeopardy - Round 1" "🔬" "wide") ;;
  initialize_session ;;
  within Col1
    (st (StTitle [Lit "🔬 Science Jeopardy Practice"]) ;;
     st (StCaption [Lit "Round 1: 30 Questions | 30 Minutes"])) ;;
  within Sidebar
    (st (StHeader [Lit "Test Controls"]) ;;
     clicked ← st_button "🚀 Start New Test";
     (if clicked : bool then start_test ;; st_rerun else mret tt) ;;
     st (StMarkdown [Lit "---"]) ;;
     st (StInfo [Lit "**Instructions:**"; Lit newline; Lit "1. You have **";
                 Fmt (PInt (TEST_DURATION_MINUTES cfg));
                 Lit " minutes**."; Lit newline; Lit "2. Answer **";
                 Fmt (PInt (Z.of_nat (QUESTIONS_PER_TEST cfg)));
                 Lit " questions**."; Lit newline;
                 Lit "3. Click 'Submit' to see results."])) ;;
  started ← getattr "exam_started";
  if truthy started then
    within Col2 (countdown_timer (TEST_DURATION_MINUTES cfg)) ;;
    now ← time_time;
    start_time ← getattr "start_time";
    elapsed ← lift (float_sub now start_time);
    let is_late := Qgt_bool elapsed (inject_Z (TEST_DURATION_MINUTES cfg * 60)) in
    within (Form "test_form")
      (questions ← getattr "selected_questions" ≫= (λ v, lift (py_iter v));
       for_each (enumerate questions) tt render_question ;;
       st (StMarkdown [Lit "---"]) ;;
       submitted ← st_form_submit_button "Submit Test";
       if submitted : bool then on_submit is_late else mret tt)
  else
    st (StMarkdown welcome).

(** Streamlit runs the script on an empty page and, when the script asks
    for a rerun, runs it once more with no button pressed. *)
Definition fresh_page (w : world) : world :=
  World _ (session_state w) [] (files w) (clock w) (gen w) (pressed w).
Definition release_buttons (w : world) : world :=
  World _ (session_state w) (page w) (files w) (clock w) (gen w) ∅.

Definition run_script (w : world) : outcome unit * world :=
  match main (fresh_page w) with
  | (Raise RerunException, w') => main (fresh_page (release_buttons w'))
  | r => r
  end.

End Script.

(** ** A reference implementation of the library interface *)

Module Reference.

(** A linear congruential generator; [randbelow g n] is a draw in
    [0, n). *)
Definition next (g : N) : N := ((g * 1103515245 + 12345) mod 2147483648)%N.

Definition randbelow (g : N) (n : nat) : nat := N.to_nat (g mod N.of_nat n)%N.

(** Selection from a pool, as [random.sample] does for a population that
    is small next to the sample: draw a position of the pool, take the item
    there, and move the last item of the pool into the vacancy. *)
Fixpoint pool_sample (k : nat) (pool : list nat) (g : N) : list nat * N :=
  match k with
  | O => ([], g)
  | S k' =>
      let n := length pool in
      let j := randbelow g n in
      match pool !! j, last pool with
      | Some x, Some y =>
          let '(rest, g') := pool_sample k' (take (n - 1) (<[j := y]> pool)) (next g) in
          (x :: rest, g')
      | _, _ => ([], g)
      end
  end.

Definition sample_positions (g : N) (n k : nat) : list nat * N :=
  pool_sample k (seq 0 n) g.

(** The decoder of the reference implementation knows three documents. *)
Definition question (text : string) (options : list string) (answer : string) : pyval :=
  PDict [("question", PStr text);
         ("options", PList (PStr <$> options));
         ("answer", PStr answer)].

Definition three_questions : list pyval :=
  [question "Symbol of gold?" ["Au"; "Ag"; "Fe"] "Au";
   question "Planet nearest the Sun?" ["Venus"; "Mercury"] "Mercury";
   question "Boiling point of water in Celsius?" ["90"; "100"] "100"].

Definition json_loads (content : string) : option pyval :=
  if String.eqb content "<three questions>" then Some (PList three_questions)
  else if String.eqb content "[]" then Some (PList [])
  else if String.eqb content "{}" then Some (PDict [])
  else None.

(** Sessions used as examples. *)
Definition abc_questions : list pyval :=
  [question "First?" ["A"; "X"] "A";
   question "Second?" ["B"; "X"] "B";
   question "Third?" ["C"; "X"] "C"].

Definition started_session (questions : list pyval) (start : Q) : gmap string pyval :=
  <["exam_started" := PBool true]>
    (<["start_time" := PFloat start]>
       (<["selected_questions" := PList questions]> ∅)).

Definition axc_session : gmap string pyval :=
  <["q_0" := PStr "A"]> (<["q_1" := PStr "X"]> (<["q_2" := PStr "C"]>
    (started_session abc_questions 100))).

Definition bank_file : gmap string string := {["questions.json" := "<three questions>"]}.

End Reference.

(** ** Notions used in the statements *)

(** What question [i] holds as its response: the value under [q_<i>], and
    [None] when the key is absent. *)
Definition response (ss : gmap string pyval) (i : nat) : pyval :=
  default PNone (ss !! widget_key i).

(** The records the grading loop can process are the dicts with the two
    keys it subscripts; the form also subscripts ["options"]. *)
Definition gradable (q : pyval) : bool :=
  match getitem q "answer", getitem q "question" with
  | Return _, Return _ => true
  | _, _ => false
  end.

Definition renderable (q : pyval) : bool :=
  match getitem q "question", getitem q "options" with
  | Return _, Return _ => true
  | _, _ => false
  end.

Definition answer (q : pyval) : pyval :=
  match getitem q "answer" with
  | Return a => a
  | Raise _ => PNone
  end.

Definition verdicts (ss : gmap string pyval) (questions : list pyval) : list bool :=
  map (λ iq, py_eq (response ss iq.1) (answer iq.2)) (enumerate questions).

Definition count_correct (vs : list bool) : nat := length (filter Is_true vs).

(** The grade report, and how the page displays one: the result cards in
    order (a card is expanded exactly when the answer was wrong), the two
    metrics, the tier message. *)
Inductive tier := Excellent | NeedsReview | NeedsPractice.

Record grade_report := GradeReport {
  report_verdicts : list bool;
  raw_score : nat;
  total_questions : nat;
  percentage : Q;
  report_tier : tier
}.

Definition tier_element (t : tier) : element :=
  match t with
  | Excellent =>
      StSuccess [Lit "🏆 **Excellent work!** You are ready for the Science Olympiad!"]
  | NeedsReview =>
      StWarning [Lit "⚠️ **Good effort!** Review the topics you missed and try again."]
  | NeedsPractice =>
      StError [Lit "🛑 **Keep practicing.** You need a bit more study time."]
  end.

Definition shows_verdict (card : element) (v : bool) : Prop :=
  ∃ label body, card = Within (Expander label (negb v)) body.

Definition displays (rendered : list element) (r : grade_report) : Prop :=
  ∃ cards,
    rendered =
      [StBalloons; StWrite [Lit "## 📝 Test Results"]] ++ cards ++
      [Within ColScore1
         [StMetric "Raw Score" [Fmt (PInt (Z.of_nat (raw_score r))); Lit "/";
                                Fmt (PInt (Z.of_nat (total_questions r)))]];
       Within ColScore2 [StMetric "Percentage" [Fmt1f (percentage r); Lit "%"]];
       tier_element (report_tier r)] ∧
    Forall2 shows_verdict cards (report_verdicts r).

Section Sessions.
Context `{lib : PyLib} (cfg : config).

(** [w] with [rendered] added at the end of its page. *)
Definition rendering (w : world) (rendered : list element) : world :=
  set_page (page w ++ rendered) w.

(** Between two runs the browser may change anything but the three
    entries the script owns: widget values, clock, files, buttons. *)
Definition frontend_step (w w' : world) : Prop :=
  ∀ k, (∀ i, k ≠ widget_key i) → session_state w' !! k = session_state w !! k.

Inductive reachable : world → Prop :=
| reachable_new w :
    session_state w = ∅ → reachable w
| reachable_initialize w :
    reachable w → reachable (initialize_session w).2
| reachable_start w :
    reachable w → reachable (start_test cfg w).2
| reachable_frontend w w' :
    reachable w → frontend_step w w' → reachable w'.

Definition session_invariant (ss : gmap string pyval) : Prop :=
  ∀ v, ss !! "exam_started" = Some v → truthy v = true →
    (∃ t, ss !! "start_time" = Some (PFloat t)) ∧
    (∃ questions, ss !! "selected_questions" = Some (PList questions) ∧
                  0 < length questions ≤ QUESTIONS_PER_TEST cfg).

(** A computation under which the reachable worlds are closed. *)
Definition preserves {A} (c : M A) : Prop :=
  ∀ w, reachable w → reachable (c w).2.

End Sessions.

(** Errors of loading, and the messages that report them. *)
Inductive load_error := NotFound | MalformedData.

Definition reports (cfg : config) (e : load_error) (shown : element) : Prop :=
  match e with
  | NotFound =>
      shown = StError [Lit "File '"; Lit (QUESTION_FILE cfg);
                       Lit "' not found! Please make sure it is in the same folder."]
  | MalformedData =>
      shown = StError [Lit "JSON file format is incorrect. Expected a list of questions."] ∨
      shown = StError [Lit "Error decoding '"; Lit (QUESTION_FILE cfg);
                       Lit "'. Please check the file syntax."]
  end.

(** The tier of a raw score and the report that a list of questions and the
    stored responses determine, as the specification words them. *)
Definition tier_of (score : nat) : tier :=
  if 25 <=? score then Excellent
  else if 15 <=? score then NeedsReview
  else NeedsPractice.

Definition grade_of (ss : gmap string pyval) (questions : list pyval) : grade_report :=
  let raw := count_correct (verdicts ss questions) in
  {| report_verdicts := verdicts ss questions;
     raw_score := raw;
     total_questions := length questions;
     percentage := (inject_Z (Z.of_nat raw) / inject_Z (Z.of_nat (length questions)) * 100)%Q;
     report_tier := tier_of raw |}.

(** A partial-correctness triple on the session dictionary: from a world
    whose dictionary satisfies [P], the computation either returns [a] in a
    world whose dictionary satisfies [Q a], or raises something other than
    [ZeroDivisionError]. *)
Definition triple `{PyLib} {A} (P : gmap string pyval → Prop) (c : M A)
    (Q : A → gmap string pyval → Prop) : Prop :=
  ∀ w, P (session_state w) →
    match c w with
    | (Return a, w') => Q a (session_state w')
    | (Raise e, _) => e ≠ ZeroDivisionError
    end.

(** A session with at least one selected question. *)
Definition has_questions (ss : gmap string pyval) : Prop :=
  ∃ questions, ss !! "selected_questions" = Some (PList questions) ∧ questions ≠ [].

(** ** The script in blocks

    The pieces of a run of [main] that the statements about whole runs name:
    the entries the script writes, the elements above the form, the form of
    one question. *)

(** The three session entries the script itself assigns (lines 84-89 and
    98-100). *)
Definition owned (k : string) : Prop :=
  k = "exam_started" ∨ k = "selected_questions" ∨ k = "start_time".

(** [if k not in st.session_state: st.session_state[k] = v], on the
    dictionary. *)
Definition with_default (k : string) (v : pyval) (ss : gmap string pyval) :
    gmap string pyval :=
  match ss !! k with
  | Some _ => ss
  | None => <[k := v]> ss
  end.

(** Lines 84-89 on the dictionary, in the order of the script. *)
Definition initialized (ss : gmap string pyval) : gmap string pyval :=
  with_default "start_time" PNone
    (with_default "selected_questions" (PList [])
       (with_default "exam_started" (PBool false) ss)).

(** Lines 105-120 when the start button is not pressed: page configuration,
    title column and sidebar. *)
Definition chrome (cfg : config) : list element :=
  [StSetPageConfig "Science Jeopardy - Round 1" "🔬" "wide";
   Within Col1
     [StTitle [Lit "🔬 Science Jeopardy Practice"];
      StCaption [Lit "Round 1: 30 Questions | 30 Minutes"]];
   Within Sidebar
     [StHeader [Lit "Test Controls"];
      StButton "🚀 Start New Test";
      StMarkdown [Lit "---"];
      StInfo [Lit "**Instructions:**"; Lit newline; Lit "1. You have **";
              Fmt (PInt (TEST_DURATION_MINUTES cfg));
              Lit " minutes**."; Lit newline; Lit "2. Answer **";
              Fmt (PInt (Z.of_nat (QUESTIONS_PER_TEST cfg)));
              Lit " questions**."; Lit newline;
              Lit "3. Click 'Submit' to see results."]]].

(** The value of a key of a record, [None] when the subscript raises. *)
Definition field (q : pyval) (k : string) : pyval :=
  match getitem q k with
  | Return v => v
  | Raise _ => PNone
  end.

(** A value the radio group of [q] can hold: no selection, or one of the
    options of [q]. *)
Definition offered (q : pyval) (v : pyval) : bool :=
  match v with
  | PNone => true
  | _ => match field q "options" with
         | PList options => existsb (py_eq v) options
         | _ => false
         end
  end.

(** Lines 131-139: what the form shows for one question. *)
Definition question_form (iq : nat * pyval) : list element :=
  [StMarkdown [Lit "##### "; Fmt (PInt (Z.of_nat iq.1 + 1)); Lit ". ";
               Fmt (field iq.2 "question")];
   StRadio "Select Answer:" (field iq.2 "options") (widget_key iq.1);
   StWrite [Lit ""]].

(** The session dictionary once the radio groups [i, i + n) are registered. *)
Fixpoint register_from (i n : nat) (ss : gmap string pyval) : gmap string pyval :=
  match n with
  | O => ss
  | S n' => register_from (S i) n' (with_default (widget_key i) PNone ss)
  end.

Section PageBlocks.
Context `{lib : PyLib} (cfg : config).

(** Lines 130-190: the body of [with st.form("test_form")]. *)
Definition form_body (is_late : bool) : M unit :=
  questions ← getattr "selected_questions" ≫= (λ v, lift (py_iter v));
  for_each (enumerate questions) tt render_question ;;
  st (StMarkdown [Lit "---"]) ;;
  submitted ← st_form_submit_button "Submit Test";
  if submitted : bool then on_submit is_late else mret tt.

(** Lines 122-199: what [main] runs after the sidebar. *)
Definition page_below_sidebar (started : pyval) : M unit :=
  if truthy started then
    within Col2 (countdown_timer (TEST_DURATION_MINUTES cfg)) ;;
    now ← time_time;
    start_time ← getattr "start_time";
    elapsed ← lift (float_sub now start_time);
    let is_late := Qgt_bool elapsed (inject_Z (TEST_DURATION_MINUTES cfg * 60)) in
    within (Form "test_form") (form_body is_late)
  else
    st (StMarkdown welcome).

End PageBlocks.

(** A property of worlds that every step of [c] keeps, whether [c] returns
    or raises. *)
Definition keeps `{PyLib} {A} (R : world → Prop) (c : M A) : Prop :=
  ∀ w, R w → R (c w).2.

(** * Properties *)

Section Proofs.
Context `{lib : PyLib} (cfg : config).

Lemma bind_return {A B} (c : M A) (f : A → M B) w a w' :
  c w = (Return a, w') → (c ≫= f) w = f a w'.
Proof. intros H. unfold mbind, M_bind. by rewrite H. Qed.

Lemma bind_raise {A B} (c : M A) (f : A → M B) w e w' :
  c w = (Raise e, w') → (c ≫= f) w = (Raise e, w').
Proof. intros H. unfold mbind, M_bind. by rewrite H. Qed.

Lemma rendering_inj w shown shown' :
  rendering w shown = rendering w shown' → shown = shown'.
Proof.
  intros H. apply (f_equal page) in H. simpl in H. by simplify_list_eq.
Qed.

Lemma rendering_ne w shown : shown ≠ [] → rendering w shown ≠ w.
Proof.
  intros Hne H. apply (f_equal page) in H. simpl in H.
  apply (f_equal length) in H. rewrite length_app in H.
  destruct shown; [done | simpl in H; lia].
Qed.

Lemma load_questions_from_file_eq w :
  load_questions_from_file cfg w =
    match files w !! QUESTION_FILE cfg with
    | None =>
        (Return [],
         rendering w [StError [Lit "File '"; Lit (QUESTION_FILE cfg);
                      Lit "' not found! Please make sure it is in the same folder."]])
    | Some content =>
        match json_loads content with
        | None =>
            (Return [],
             rendering w [StError [Lit "Error decoding '"; Lit (QUESTION_FILE cfg);
                          Lit "'. Please check the file syntax."]])
        | Some (PList questions) => (Return questions, w)
        | Some _ =>
            (Return [],
             rendering w [StError [Lit "JSON file format is incorrect. Expected a list of questions."]])
        end
    end.
Proof.
  unfold load_questions_from_file, try_except, open, json_load, mbind, M_bind.
  destruct (files w !! QUESTION_FILE cfg) as [content|]; [|done].
  destruct (json_loads content) as [[]|]; done.
Qed.

Lemma omap_lookup_Forall2 {A} (population : list A) (positions : list nat) :
  Forall (λ i, i < length population) positions →
  Forall2 (λ i x, population !! i = Some x) positions
          (omap (λ i, population !! i) positions).
Proof.
  induction 1 as [|i positions Hi _ IH]; simpl; [constructor|].
  destruct (lookup_lt_is_Some_2 population i Hi) as [x Hx].
  rewrite Hx. by constructor.
Qed.

Lemma random_sample_spec population k w :
  k ≤ length population →
  ∃ positions g,
    random_sample population k w =
      (Return (omap (λ i, population !! i) positions), set_gen g w) ∧
    length positions = k ∧ NoDup positions ∧
    Forall2 (λ i x, population !! i = Some x) positions
            (omap (λ i, population !! i) positions).
Proof.
  intros Hk. unfold random_sample. rewrite decide_True by done.
  pose proof (sample_positions_length (gen w) _ _ Hk) as Hlen.
  pose proof (sample_positions_NoDup (gen w) _ _ Hk) as Hnd.
  pose proof (sample_positions_lt (gen w) _ _ Hk) as Hlt.
  destruct (sample_positions (gen w) (length population) k) as [positions g].
  simpl in *. exists positions, g. split_and!; try done.
  by apply omap_lookup_Forall2.
Qed.

Lemma Forall2_lookup_NoDup {A} (population : list A) positions selected :
  Forall2 (λ i x, population !! i = Some x) positions selected →
  NoDup positions → NoDup population → NoDup selected.
Proof.
  intros HF Hpos Hpop. revert Hpos.
  induction HF as [|i x positions selected Hix HF IH]; intros Hpos; [constructor|].
  apply NoDup_cons in Hpos as [Hi Hpos]. apply NoDup_cons. split; [|by apply IH].
  intros Hx. apply list_elem_of_lookup in Hx as [n Hn].
  destruct (Forall2_lookup_r _ _ _ _ _ HF Hn) as (j & Hj & Hjx).
  assert (i = j) as -> by exact (NoDup_lookup _ _ _ _ Hpop Hix Hjx).
  apply Hi. by eapply list_elem_of_lookup_2.
Qed.

(** C1. When the question file decodes to a non-empty list [bank],
    [start_test] returns and stores under ["selected_questions"] a list of
    exactly [min QUESTIONS_PER_TEST (length bank)] records, taken from
    pairwise distinct positions of [bank]: every stored record is a member of
    the bank, and the stored records are pairwise distinct whenever the
    records of the bank are. *)
Theorem start_test_samples w content bank :
  files w !! QUESTION_FILE cfg = Some content →
  json_loads content = Some (PList bank) →
  bank ≠ [] →
  ∃ selected positions,
    (start_test cfg w).1 = Return tt ∧
    session_state (start_test cfg w).2 !! "selected_questions" = Some (PList selected) ∧
    length selected = min (QUESTIONS_PER_TEST cfg) (length bank) ∧
    NoDup positions ∧
    Forall2 (λ i q, bank !! i = Some q) positions selected ∧
    (∀ q, q ∈ selected → q ∈ bank) ∧
    (NoDup bank → NoDup selected).
Proof.
  intros Hfile Hjson Hne.
  destruct (random_sample_spec bank (min (QUESTIONS_PER_TEST cfg) (length bank)) w)
    as (positions & g & Hrun & Hlen & Hnd & HF); [lia|].
  exists (omap (λ i, bank !! i) positions), positions.
  unfold start_test.
  erewrite bind_return; last first.
  { rewrite load_questions_from_file_eq, Hfile, Hjson. done. }
  destruct bank as [|q0 bank']; [done|]. cbn [truthy negb].
  erewrite bind_return by exact Hrun.
  split_and!; try done.
  - cbn. by simplify_map_eq.
  - rewrite <- (Forall2_length _ _ _ HF). exact Hlen.
  - intros q [i Hi]%list_elem_of_lookup.
    destruct (Forall2_lookup_r _ _ _ _ _ HF Hi) as (j & _ & Hj).
    by eapply list_elem_of_lookup_2.
  - intros Hbank. by eapply Forall2_lookup_NoDup.
Qed.

(** C7. When the question file is missing, does not decode, does not hold a
    list, or holds the empty list, [start_test] returns without touching the
    session dictionary: ["selected_questions"], ["start_time"] and
    ["exam_started"] keep whatever they held. *)
Theorem start_test_without_bank w :
  (∀ content q bank, files w !! QUESTION_FILE cfg = Some content →
                     json_loads content ≠ Some (PList (q :: bank))) →
  (start_test cfg w).1 = Return tt ∧
  session_state (start_test cfg w).2 = session_state w.
Proof.
  intros H. unfold start_test, mbind, M_bind.
  rewrite load_questions_from_file_eq.
  destruct (files w !! QUESTION_FILE cfg) as [content|] eqn:Hfile; [|done].
  destruct (json_loads content) as [[| | | | |[|q bank]|]|] eqn:Hjson; try done.
  by destruct (H content q bank).
Qed.

(** C6. [load_questions_from_file] reports the not-found error exactly
    when the question file is absent, and a malformed-data error exactly when
    the file is present and either does not decode or decodes to something
    that is not a list; whenever it reports an error it yields no questions.
    Otherwise it yields the decoded list and renders nothing. *)
Theorem load_reports_errors w :
  let r := (load_questions_from_file cfg w).1 in
  let w' := (load_questions_from_file cfg w).2 in
  let surfaced e := ∃ shown, reports cfg e shown ∧ w' = rendering w [shown] in
  (surfaced NotFound ↔ files w !! QUESTION_FILE cfg = None) ∧
  (surfaced MalformedData ↔
     ∃ content, files w !! QUESTION_FILE cfg = Some content ∧
       (json_loads content = None ∨
        ∃ v, json_loads content = Some v ∧ ∀ questions, v ≠ PList questions)) ∧
  (surfaced NotFound ∨ surfaced MalformedData → r = Return []) ∧
  (∀ content questions,
     files w !! QUESTION_FILE cfg = Some content →
     json_loads content = Some (PList questions) →
     r = Return questions ∧ w' = w).
Proof.
  cbv zeta. rewrite load_questions_from_file_eq.
  destruct (files w !! QUESTION_FILE cfg) as [content|] eqn:Hfile.
  - destruct (json_loads content) as [v|] eqn:Hjson.
    + assert (Hlist : (∃ questions, v = PList questions) ∨ ∀ questions, v ≠ PList questions).
      { destruct v; eauto. }
      destruct Hlist as [[questions ->]|Hv].
      * simpl. split_and!.
        -- split; [|done]. intros (shown & _ & H). symmetry in H.
           by apply rendering_ne in H.
        -- split.
           ++ intros (shown & _ & H). symmetry in H. by apply rendering_ne in H.
           ++ intros (c & [= <-] & [Hq|(v' & Hq & Hv')]); rewrite Hjson in Hq; [done|].
              injection Hq as <-. by destruct (Hv' questions).
        -- intros [(shown & _ & H)|(shown & _ & H)]; symmetry in H; by apply rendering_ne in H.
        -- intros ? ? [= <-] ?. by simplify_eq.
      * assert (Hrun : match v with
                       | PList questions => (Return questions, w)
                       | _ => (Return [], rendering w [StError [Lit "JSON file format is incorrect. Expected a list of questions."]])
                       end = (Return [], rendering w [StError [Lit "JSON file format is incorrect. Expected a list of questions."]])).
        { destruct v; try done. by destruct (Hv xs). }
        rewrite Hrun. simpl. split_and!.
        -- split; [|done]. intros (shown & Hs & H). apply rendering_inj in H.
           simpl in Hs. by simplify_eq.
        -- split; [eauto 10|]. intros _. eexists. split; [by left|done].
        -- done.
        -- intros c qs [= <-] Hq. rewrite Hjson in Hq. injection Hq as ->.
           by destruct (Hv qs).
    + simpl. split_and!.
      * split; [|done]. intros (shown & Hs & H). apply rendering_inj in H.
        simpl in Hs. by simplify_eq.
      * split; [eauto 10|]. intros _. eexists. split; [by right|done].
      * done.
      * intros ? ? [= <-] ?. by simplify_eq.
  - simpl. split_and!.
    + split; [done|]. intros _. eexists. by split.
    + split; [|by intros (? & ? & _)].
      intros (shown & [Hs|Hs] & H); apply rendering_inj in H; by simplify_eq.
    + done.
    + done.
Qed.

(** *** The grading loop and the score display *)
Lemma rendering_nil w : rendering w [] = w.
Proof. destruct w. unfold rendering, set_page. simpl. by rewrite app_nil_r. Qed.

Lemma rendering_app w a b : rendering (rendering w a) b = rendering w (a ++ b).
Proof. unfold rendering, set_page. simpl. by rewrite app_assoc. Qed.

Lemma grade_question_reads i q score w1 w2 :
  response (session_state w1) i = response (session_state w2) i →
  ∃ r rendered,
    grade_question (i, q) score w1 = (r, rendering w1 rendered) ∧
    grade_question (i, q) score w2 = (r, rendering w2 rendered).
Proof.
  intros Hresp. unfold grade_question, session_get, lift, within, st, mbind, M_bind, mret, M_ret.
  fold (response (session_state w1) i). fold (response (session_state w2) i).
  rewrite <- Hresp.
  destruct (getitem q "answer") as [a|e].
  2:{ exists (Raise e), []. by rewrite !rendering_nil. }
  destruct (getitem q "question") as [t|e].
  2:{ exists (Raise e), []. by rewrite !rendering_nil. }
  destruct (py_eq (response (session_state w1) i) a); [by eexists _, [_]|].
  simpl. destruct (dict_get q "topic" (PStr "General")); by eexists _, [_].
Qed.

Lemma grading_loop_reads questions i score w1 w2 :
  (∀ j, response (session_state w1) j = response (session_state w2) j) →
  ∃ r rendered,
    for_each (enumerate_from i questions) score grade_question w1 = (r, rendering w1 rendered) ∧
    for_each (enumerate_from i questions) score grade_question w2 = (r, rendering w2 rendered).
Proof.
  intros Hresp. revert i score w1 w2 Hresp.
  induction questions as [|q questions IH]; intros i score w1 w2 Hresp; simpl.
  - exists (Return score), []. by rewrite !rendering_nil.
  - destruct (grade_question_reads i q score w1 w2 (Hresp i)) as (r & card & H1 & H2).
    destruct r as [score'|e].
    + rewrite (bind_return _ _ _ _ _ H1), (bind_return _ _ _ _ _ H2).
      destruct (IH (S i) score' (rendering w1 card) (rendering w2 card)) as (r & rest & H1' & H2');
        [done|].
      exists r, (card ++ rest). by rewrite H1', H2', !rendering_app.
    + rewrite (bind_raise _ _ _ _ _ H1), (bind_raise _ _ _ _ _ H2). eauto.
Qed.

Lemma grade_question_gradable i q score w :
  gradable q = true →
  let v := py_eq (response (session_state w) i) (answer q) in
  ∃ card,
    grade_question (i, q) score w =
      (Return (if v then score + 1 else score), rendering w [card]) ∧
    shows_verdict card v.
Proof.
  unfold gradable, answer, shows_verdict.
  unfold grade_question, session_get, lift, within, st, mbind, M_bind, mret, M_ret.
  fold (response (session_state w) i).
  destruct (getitem q "answer") as [a|e] eqn:Ha; [|done].
  destruct (getitem q "question") as [t|e] eqn:Ht; [|done]. intros _.
  destruct (py_eq (response (session_state w) i) a); [by eexists; split; [|by eexists _, _]|].
  simpl. destruct q; try done. simpl. by eexists; split; [|by eexists _, _].
Qed.

Lemma count_correct_cons v vs :
  count_correct (v :: vs) = (if v then 1 else 0) + count_correct vs.
Proof.
  unfold count_correct. by destruct v.
Qed.

Lemma grading_loop_gradable questions i score w :
  Forall (λ q, gradable q = true) questions →
  let vs := map (λ iq, py_eq (response (session_state w) iq.1) (answer iq.2))
                (enumerate_from i questions) in
  ∃ cards,
    for_each (enumerate_from i questions) score grade_question w =
      (Return (score + count_correct vs), rendering w cards) ∧
    Forall2 shows_verdict cards vs.
Proof.
  intros Hq. revert i score w.
  induction Hq as [|q questions Hq _ IH]; intros i score w; simpl.
  - exists []. rewrite rendering_nil. split; [|constructor].
    by rewrite Nat.add_0_r.
  - destruct (grade_question_gradable i q score w Hq) as (card & Hrun & Hcard).
    rewrite (bind_return _ _ _ _ _ Hrun).
    destruct (IH (S i) (if py_eq (response (session_state w) i) (answer q)
                        then score + 1 else score) (rendering w [card]))
      as (cards & Hrest & Hcards).
    exists (card :: cards). rewrite Hrest, rendering_app, count_correct_cons. simpl.
    split; [|by constructor].
    do 2 f_equal. destruct (py_eq _ _); lia.
Qed.

Lemma st_run e w : st e w = (Return tt, rendering w [e]).
Proof. done. Qed.

Lemma tier_message_tier_of score : tier_message score = tier_element (tier_of score).
Proof. unfold tier_message, tier_of. by repeat case_match. Qed.

Lemma bind_st {B} e (f : unit → M B) w : (st e ≫= f) w = f tt (rendering w [e]).
Proof. done. Qed.

Lemma bind_mret {A B} (a : A) (f : A → M B) w : (mret a ≫= f) w = f a w.
Proof. done. Qed.

Lemma bind_lift {A B} (a : A) (f : A → M B) w : (lift (Return a) ≫= f) w = f a w.
Proof. done. Qed.

Lemma bind_lift_raise {A B} e (f : A → M B) w : (lift (Raise e) ≫= f) w = (Raise e, w).
Proof. done. Qed.

Lemma bind_getattr {B} name v (f : pyval → M B) w :
  session_state w !! name = Some v → (getattr name ≫= f) w = f v w.
Proof. intros H. unfold mbind, M_bind, getattr. by rewrite H. Qed.

Lemma bind_getattr_rendering {B} name v (f : pyval → M B) w a :
  session_state w !! name = Some v →
  (getattr name ≫= f) (rendering w a) = f v (rendering w a).
Proof. intros H. by apply bind_getattr. Qed.

Lemma bind_assoc {A B C} (c : M A) (f : A → M B) (g : B → M C) w :
  ((c ≫= f) ≫= g) w = (c ≫= (λ a, f a ≫= g)) w.
Proof. unfold mbind, M_bind. by destruct (c w) as [[a|e] w']. Qed.

Lemma within_run {A} c (body : M A) w r rendered :
  body (set_page [] w) = (r, rendering (set_page [] w) rendered) →
  within c body w = (r, rendering w [Within c rendered]).
Proof. intros H. unfold within. by rewrite H. Qed.

Lemma bind_within {A B} c (body : M A) (f : A → M B) w a rendered :
  body (set_page [] w) = (Return a, rendering (set_page [] w) rendered) →
  (within c body ≫= f) w = f a (rendering w [Within c rendered]).
Proof. intros H. apply bind_return. by apply within_run. Qed.

Lemma raw_score_metric w name questions score :
  session_state w !! name = Some (PList questions) →
  (total ← getattr name ≫= (λ v, lift (py_len v));
   st (StMetric "Raw Score" [Fmt (PInt (Z.of_nat score)); Lit "/";
                             Fmt (PInt (Z.of_nat total))])) w =
  (Return tt, rendering w [StMetric "Raw Score" [Fmt (PInt (Z.of_nat score)); Lit "/";
                             Fmt (PInt (Z.of_nat (length questions)))]]).
Proof.
  intros H. rewrite bind_assoc, (bind_getattr _ _ _ _ H). cbv beta.
  cbn [py_len]. by rewrite bind_lift.
Qed.

Lemma grading_gradable w questions :
  session_state w !! "selected_questions" = Some (PList questions) →
  questions ≠ [] →
  Forall (λ q, gradable q = true) questions →
  ∃ rendered,
    grading w = (Return tt, rendering w rendered) ∧
    displays rendered (grade_of (session_state w) questions).
Proof.
  intros Hsel Hne Hq. unfold grading.
  rewrite bind_st. cbv beta. rewrite bind_st. cbv beta. rewrite rendering_app.
  rewrite bind_assoc, (bind_getattr_rendering _ _ _ _ _ Hsel). cbv beta.
  cbn [py_iter]. rewrite bind_lift. cbv beta.
  destruct (grading_loop_gradable questions 0 0
              (rendering w ([StBalloons] ++ [StWrite [Lit "## 📝 Test Results"]])) Hq)
    as (cards & Hloop & Hcards).
  change (session_state (rendering w ?a)) with (session_state w) in Hloop, Hcards.
  fold (enumerate questions) in Hloop, Hcards.
  fold (verdicts (session_state w) questions) in Hloop, Hcards.
  rewrite Nat.add_0_l in Hloop.
  rewrite (bind_return _ _ _ _ _ Hloop). rewrite rendering_app.
  rewrite bind_assoc, (bind_getattr_rendering _ _ _ _ _ Hsel). cbv beta.
  cbn [py_len]. rewrite bind_lift. cbv beta.
  destruct (length questions) as [|n] eqn:Hlen; [by destruct questions|].
  cbn [true_div]. rewrite bind_lift. cbv beta.
  erewrite bind_within; last by apply (raw_score_metric (set_page [] _) _ _ _ Hsel).
  erewrite bind_within; last by apply st_run.
  rewrite st_run, !rendering_app, tier_message_tier_of.
  eexists. split; [done|].
  exists cards. split; [|done].
  unfold grade_of. cbn [raw_score total_questions percentage report_tier].
  rewrite Hlen. by rewrite <- !app_assoc.
Qed.

Lemma bind_getattr_None {B} name (f : pyval → M B) w :
  session_state w !! name = None →
  (getattr name ≫= f) w = (Raise (AttributeError name), w).
Proof. intros H. unfold mbind, M_bind, getattr. by rewrite H. Qed.

Lemma py_iter_len v xs : py_iter v = Return xs → ∃ n, py_len v = Return n.
Proof. destruct v; simpl; try done; eauto. Qed.

Lemma grading_reads w1 w2 :
  session_state w1 !! "selected_questions" = session_state w2 !! "selected_questions" →
  (∀ j, response (session_state w1) j = response (session_state w2) j) →
  ∃ r rendered,
    grading w1 = (r, rendering w1 rendered) ∧
    grading w2 = (r, rendering w2 rendered).
Proof.
  intros Hsel Hresp. unfold grading.
  repeat (rewrite bind_st; cbv beta). rewrite !rendering_app.
  rewrite !bind_assoc.
  destruct (session_state w1 !! "selected_questions") as [v|] eqn:H1; symmetry in Hsel.
  2:{ rewrite !bind_getattr_None by done. eauto. }
  rewrite (bind_getattr_rendering _ _ _ w1 _ H1), (bind_getattr_rendering _ _ _ w2 _ Hsel).
  cbv beta.
  destruct (py_iter v) as [questions|e] eqn:Hiter.
  2:{ rewrite !bind_lift_raise. eauto. }
  rewrite !bind_lift. cbv beta.
  destruct (grading_loop_reads questions 0 0
              (rendering w1 ([StBalloons] ++ [StWrite [Lit "## 📝 Test Results"]]))
              (rendering w2 ([StBalloons] ++ [StWrite [Lit "## 📝 Test Results"]])) Hresp)
    as ([score|e] & cards & Hrun1 & Hrun2).
  2:{ rewrite (bind_raise _ _ _ _ _ Hrun1), (bind_raise _ _ _ _ _ Hrun2), !rendering_app. eauto. }
  rewrite (bind_return _ _ _ _ _ Hrun1), (bind_return _ _ _ _ _ Hrun2), !rendering_app.
  rewrite !bind_assoc.
  rewrite (bind_getattr_rendering _ _ _ w1 _ H1), (bind_getattr_rendering _ _ _ w2 _ Hsel).
  cbv beta.
  destruct (py_iter_len _ _ Hiter) as [n Hn]. rewrite Hn, !bind_lift. cbv beta.
  destruct n as [|n]; cbn [true_div].
  { rewrite !bind_lift_raise. eauto. }
  rewrite !bind_lift. cbv beta.
  assert (Hmetric : ∀ w, session_state w !! "selected_questions" = Some v →
    (total ← getattr "selected_questions" ≫= (λ v, lift (py_len v));
     st (StMetric "Raw Score" [Fmt (PInt (Z.of_nat score)); Lit "/";
                               Fmt (PInt (Z.of_nat total))])) w =
    (Return tt, rendering w [StMetric "Raw Score" [Fmt (PInt (Z.of_nat score)); Lit "/";
                               Fmt (PInt (Z.of_nat (S n)))]])).
  { intros w Hw. rewrite bind_assoc, (bind_getattr _ _ _ _ Hw). cbv beta.
    by rewrite Hn, bind_lift. }
  erewrite !bind_within; try by apply st_run.
  2:{ by apply (Hmetric (set_page [] _)). }
  2:{ by apply (Hmetric (set_page [] _)). }
  rewrite !st_run, !rendering_app. eauto.
Qed.

Lemma grading_empty w :
  session_state w !! "selected_questions" = Some (PList []) →
  grading w =
    (Raise ZeroDivisionError,
     rendering w [StBalloons; StWrite [Lit "## 📝 Test Results"]]).
Proof.
  intros Hsel. unfold grading.
  rewrite bind_st. cbv beta. rewrite bind_st. cbv beta. rewrite rendering_app.
  rewrite bind_assoc, (bind_getattr_rendering _ _ _ _ _ Hsel). cbv beta.
  cbn [py_iter]. rewrite bind_lift. cbv beta.
  cbn [enumerate enumerate_from for_each]. rewrite bind_mret.
  rewrite bind_assoc, (bind_getattr_rendering _ _ _ _ _ Hsel). cbv beta.
  cbn [py_len length]. rewrite bind_lift. cbv beta.
  cbn [true_div]. by rewrite bind_lift_raise.
Qed.

Lemma py_eq_None a : a ≠ PNone → py_eq PNone a = false.
Proof. by destruct a. Qed.

(** C5. For a question record with a text and an answer other than [None],
    a response of [None] (no selection, or no entry for the widget) never
    equals the answer; grading that question returns without raising,
    leaves the running score as it was, and renders the card of a wrong
    answer. *)
Theorem no_selection_is_incorrect w i q score a t :
  getitem q "answer" = Return a → a ≠ PNone →
  getitem q "question" = Return t →
  response (session_state w) i = PNone →
  py_eq PNone a = false ∧
  ∃ card,
    grade_question (i, q) score w = (Return score, rendering w [card]) ∧
    shows_verdict card false.
Proof.
  intros Ha Hnone Ht Hresp. split; [by apply py_eq_None|].
  assert (gradable q = true) as Hq by (unfold gradable; by rewrite Ha, Ht).
  destruct (grade_question_gradable i q score w Hq) as (card & Hrun & Hcard).
  unfold answer in Hrun, Hcard. rewrite Ha, Hresp, py_eq_None in Hrun, Hcard by done.
  eauto.
Qed.

(** *** A run of [main] on a started session *)
Lemma bind_contains {B} name (f : bool → M B) w :
  (contains name ≫= f) w = f (bool_decide (is_Some (session_state w !! name))) w.
Proof. done. Qed.

Lemma set_session_state_id w : set_session_state (session_state w) w = w.
Proof. by destruct w. Qed.

Lemma bind_time_time {B} (f : Q → M B) w : (time_time ≫= f) w = f (clock w) w.
Proof. done. Qed.

Lemma bind_button_released {B} label (f : bool → M B) w :
  label ∉ pressed w →
  (st_button label ≫= f) w = f false (rendering w [StButton label]).
Proof.
  intros H. unfold st_button. rewrite bind_assoc, bind_st. cbv beta.
  unfold was_pressed, mbind, M_bind. by rewrite bool_decide_eq_false_2.
Qed.

Lemma on_submit_gradable is_late w questions :
  session_state w !! "selected_questions" = Some (PList questions) →
  questions ≠ [] →
  Forall (λ q, gradable q = true) questions →
  ∃ report,
    on_submit is_late w =
      (Return tt, rendering w ((if is_late then [late_banner] else []) ++ report)) ∧
    displays report (grade_of (session_state w) questions).
Proof.
  intros Hsel Hne Hq. unfold on_submit. destruct is_late.
  - rewrite bind_st. cbv beta.
    destruct (grading_gradable (rendering w [late_banner]) questions Hsel Hne Hq)
      as (report & Hrun & Hreport).
    exists report. by rewrite Hrun, rendering_app.
  - rewrite bind_mret.
    destruct (grading_gradable w questions Hsel Hne Hq) as (report & Hrun & Hreport).
    by exists report.
Qed.

Lemma widget_key_not_owned j :
  widget_key j ≠ "exam_started" ∧ widget_key j ≠ "selected_questions" ∧
  widget_key j ≠ "start_time".
Proof. unfold widget_key. simpl. done. Qed.

(** *** Rules for triples, and the triple of [main] *)
Lemma triple_consequence {A} (P P' : gmap string pyval → Prop) (c : M A) (Q Q' : A → _ → Prop) :
  triple P' c Q' → (∀ ss, P ss → P' ss) → (∀ a ss, Q' a ss → Q a ss) → triple P c Q.
Proof.
  intros H HP HQ w Hw. specialize (H w (HP _ Hw)).
  destruct (c w) as [[a|e] w']; eauto.
Qed.

Lemma triple_pure {A} (φ : Prop) P (c : M A) Q :
  (φ → triple P c Q) → triple (λ ss, φ ∧ P ss) c Q.
Proof. intros H w [Hφ Hw]. by apply H. Qed.

Lemma triple_skip {A} P (a : A) : triple P (mret a) (λ _, P).
Proof. by intros w Hw. Qed.

Lemma triple_bind {A B} P (c : M A) R (f : A → M B) Q :
  triple P c R → (∀ a, triple (R a) (f a) Q) → triple P (c ≫= f) Q.
Proof.
  intros Hc Hf w Hw. specialize (Hc w Hw). unfold mbind, M_bind.
  destruct (c w) as [[a|e] w']; [by apply Hf|done].
Qed.

Lemma triple_raise {A} P e (Q : A → _ → Prop) :
  e ≠ ZeroDivisionError → triple P (raise e) Q.
Proof. by intros He w Hw. Qed.

Lemma triple_st P e : triple P (st e) (λ _, P).
Proof. by intros w Hw. Qed.

Lemma triple_lift {A} P (o : outcome A) :
  o ≠ Raise ZeroDivisionError → triple P (lift o) (λ a ss, o = Return a ∧ P ss).
Proof. intros Ho w Hw. unfold lift. destruct o; [done|congruence]. Qed.

Lemma triple_getattr P name :
  triple P (getattr name) (λ v ss, ss !! name = Some v ∧ P ss).
Proof. intros w Hw. unfold getattr. by destruct (session_state w !! name) eqn:H. Qed.

Lemma triple_session_get P name : triple P (session_get name) (λ _, P).
Proof. by intros w Hw. Qed.

Lemma triple_contains P name :
  triple P (contains name) (λ b ss, b = bool_decide (is_Some (ss !! name)) ∧ P ss).
Proof. by intros w Hw. Qed.

Lemma triple_time_time P : triple P time_time (λ _, P).
Proof. by intros w Hw. Qed.

Lemma triple_within {A} P c (body : M A) Q : triple P body Q → triple P (within c body) Q.
Proof.
  intros H w Hw. unfold within. specialize (H (set_page [] w) Hw).
  by destruct (body (set_page [] w)) as [[a|e] w'].
Qed.

Lemma triple_for_each {A S} P (xs : list A) (acc : S) body :
  (∀ x acc, triple P (body x acc) (λ _, P)) →
  triple P (for_each xs acc body) (λ _, P).
Proof.
  intros Hbody. revert acc. induction xs as [|x xs IH]; intros acc; simpl.
  - by intros w Hw.
  - eapply triple_bind; [apply Hbody|]. intros acc'. apply IH.
Qed.

Lemma triple_button P label : triple P (st_button label) (λ _, P).
Proof. by intros w Hw. Qed.

Lemma triple_submit_button P label : triple P (st_form_submit_button label) (λ _, P).
Proof. by intros w Hw. Qed.

Lemma getitem_safe q k : getitem q k ≠ Raise ZeroDivisionError.
Proof. unfold getitem. by repeat case_match. Qed.

Lemma dict_get_safe q k d : dict_get q k d ≠ Raise ZeroDivisionError.
Proof. unfold dict_get. by repeat case_match. Qed.

Lemma py_iter_safe v : py_iter v ≠ Raise ZeroDivisionError.
Proof. by destruct v. Qed.

Lemma py_len_safe v : py_len v ≠ Raise ZeroDivisionError.
Proof. by destruct v. Qed.

Lemma float_sub_safe x v : float_sub x v ≠ Raise ZeroDivisionError.
Proof. unfold float_sub. by case_match. Qed.

Lemma add_int_safe v n : add_int v n ≠ Raise ZeroDivisionError.
Proof. unfold add_int. by case_match. Qed.

Lemma has_questions_widget ss i v :
  has_questions ss → has_questions (<[widget_key i := v]> ss).
Proof.
  intros (questions & Hsel & Hne). exists questions. split; [|done].
  rewrite lookup_insert_ne; [done|]. apply widget_key_not_owned.
Qed.

Lemma triple_radio label options i :
  triple has_questions (st_radio label options (widget_key i)) (λ _, has_questions).
Proof.
  intros w Hw. unfold st_radio, st, contains, setattr, session_get, mbind, M_bind; simpl.
  destruct (bool_decide _); simpl; [done|]. by apply has_questions_widget.
Qed.

Lemma triple_grade_question iq score :
  triple has_questions (grade_question iq score) (λ _, has_questions).
Proof.
  destruct iq as [i q]. unfold grade_question.
  eapply triple_bind; [apply triple_session_get|]. intros user_val.
  eapply triple_bind; [apply triple_lift, getitem_safe|]. intros correct_val. cbv beta.
  apply triple_pure. intros _.
  eapply triple_bind; [apply triple_lift, getitem_safe|]. intros question. cbv beta.
  apply triple_pure. intros _.
  eapply triple_bind; [|intros; apply triple_skip].
  apply triple_within. destruct (py_eq user_val correct_val); [apply triple_st|].
  eapply triple_bind; [apply triple_st|]. intros []. cbv beta.
  eapply triple_bind; [apply triple_st|]. intros []. cbv beta.
  eapply triple_bind; [apply triple_lift, dict_get_safe|]. intros topic. cbv beta.
  apply triple_pure. intros _. apply triple_st.
Qed.

Lemma triple_render_question iq :
  triple has_questions (render_question iq tt) (λ _, has_questions).
Proof.
  destruct iq as [i q]. unfold render_question.
  eapply triple_bind; [apply triple_lift, getitem_safe|]. intros question. cbv beta.
  apply triple_pure. intros _.
  eapply triple_bind; [apply triple_st|]. intros []. cbv beta.
  eapply triple_bind; [apply triple_lift, getitem_safe|]. intros options. cbv beta.
  apply triple_pure. intros _.
  eapply triple_bind; [apply triple_radio|]. intros ?. apply triple_st.
Qed.

Lemma triple_grading : triple has_questions grading (λ _ _, True).
Proof.
  unfold grading.
  eapply triple_bind; [apply triple_st|]. intros []. cbv beta.
  eapply triple_bind; [apply triple_st|]. intros []. cbv beta.
  eapply triple_bind.
  { eapply triple_bind; [apply triple_getattr|]. intros v. cbv beta.
    eapply triple_consequence; [apply (triple_lift has_questions), py_iter_safe| |].
    - by intros ss [_ ?].
    - intros a ss [_ H]. exact H. }
  intros questions. cbv beta.
  eapply triple_bind; [apply triple_for_each; intros; apply triple_grade_question|].
  intros score. cbv beta.
  eapply triple_bind with
    (R := λ total ss, (∃ n, total = S n) ∧ has_questions ss).
  { eapply triple_bind; [apply triple_getattr|]. intros v. cbv beta.
    intros w [Hv (qs & Hqs & Hne)]. rewrite Hv in Hqs. injection Hqs as ->.
    unfold lift. simpl. split; [|by exists qs].
    destruct qs; [done|]. simpl. eauto. }
  intros total. cbv beta. apply triple_pure. intros [n ->].
  cbn [true_div]. 
  eapply triple_bind; [apply (triple_lift has_questions); done|]. intros ratio. cbv beta.
  apply triple_pure. intros _.
  eapply triple_bind.
  { apply triple_within.
    eapply triple_bind with (R := λ _, has_questions); [|intros; apply triple_st].
    eapply triple_bind; [apply triple_getattr|]. intros v. cbv beta.
    eapply triple_consequence; [apply (triple_lift has_questions), py_len_safe| |].
    - by intros ss [_ ?].
    - intros a ss [_ H]. exact H. }
  intros []. cbv beta.
  eapply triple_bind; [apply triple_within, triple_st|]. intros []. cbv beta.
  by intros w Hw.
Qed.

Lemma triple_on_submit is_late : triple has_questions (on_submit is_late) (λ _ _, True).
Proof.
  unfold on_submit. eapply triple_bind; [|intros; apply triple_grading].
  destruct is_late; [apply triple_st|apply triple_skip].
Qed.

Lemma triple_countdown_timer P minutes :
  triple P (countdown_timer minutes) (λ _, P).
Proof.
  unfold countdown_timer.
  eapply triple_bind; [apply triple_getattr|]. intros start_time. cbv beta.
  assert (Hrest : triple (λ ss, ss !! "start_time" = Some start_time ∧ P ss)
            (deadline ← lift (add_int start_time (minutes * 60));
             st (ComponentsHtml (deadline * 1000)))
            (λ _, P)).
  { eapply triple_bind; [apply triple_lift, add_int_safe|]. intros deadline. cbv beta.
    by intros w (_ & _ & Hw). }
  destruct start_time; try exact Hrest.
  by intros w [_ Hw].
Qed.

Lemma start_test_returns w : (start_test cfg w).1 = Return tt.
Proof.
  unfold start_test.
  destruct (load_questions_from_file cfg w) as [r w1] eqn:Hload.
  assert (∃ bank, r = Return bank) as [bank ->].
  { rewrite load_questions_from_file_eq in Hload. repeat case_match; simplify_eq; eauto. }
  rewrite (bind_return _ _ _ _ _ Hload).
  destruct bank as [|q bank]; [done|]. cbn [truthy negb].
  destruct (random_sample_spec (q :: bank)
              (min (QUESTIONS_PER_TEST cfg) (length (q :: bank))) w1)
    as (positions & g & Hrun & _); [lia|].
  by rewrite (bind_return _ _ _ _ _ Hrun).
Qed.

Lemma triple_start_test P : triple P (start_test cfg) (λ _ _, True).
Proof.
  intros w _. pose proof (start_test_returns w) as H.
  by destruct (start_test cfg w) as [[[]|e] w'].
Qed.

Lemma initialize_session_returns w : (initialize_session w).1 = Return tt.
Proof.
  unfold initialize_session, contains, setattr, mbind, M_bind, mret, M_ret. simpl.
  by repeat (destruct (bool_decide _); simpl).
Qed.

Lemma triple_initialize_session :
  triple (session_invariant cfg) initialize_session (λ _, session_invariant cfg).
Proof.
  unfold initialize_session.
  eapply triple_bind; [apply triple_contains|]. intros present. cbv beta.
  eapply triple_bind with (R := λ _, session_invariant cfg).
  { destruct present; cbn [negb]; [by intros w [_ Hw]|].
    intros w [_ Hw]. simpl. intros v Hv Htrue.
    rewrite lookup_insert_eq in Hv. by simplify_eq. }
  intros []. cbv beta.
  eapply triple_bind; [apply triple_contains|]. clear present. intros present. cbv beta.
  eapply triple_bind with (R := λ _, session_invariant cfg).
  { destruct present; cbn [negb]; [by intros w [_ Hw]|].
    intros w [Habsent Hw]. simpl. intros v Hv Htrue.
    rewrite lookup_insert_ne in Hv by done.
    destruct (Hw v Hv Htrue) as (_ & questions & Hsel & _).
    symmetry in Habsent. apply bool_decide_eq_false in Habsent.
    destruct Habsent. eauto. }
  intros []. cbv beta.
  eapply triple_bind; [apply triple_contains|]. clear present. intros present. cbv beta.
  destruct present; cbn [negb]; [by intros w [_ Hw]|].
  intros w [Habsent Hw]. simpl. intros v Hv Htrue.
  rewrite lookup_insert_ne in Hv by done.
  destruct (Hw v Hv Htrue) as ((t & Ht) & _).
  symmetry in Habsent. apply bool_decide_eq_false in Habsent.
  destruct Habsent. eauto.
Qed.

Lemma initialize_session_invariant w :
  session_invariant cfg (session_state w) →
  session_invariant cfg (session_state (initialize_session w).2).
Proof.
  intros Hw. pose proof (triple_initialize_session w Hw) as H.
  pose proof (initialize_session_returns w) as Hr.
  destruct (initialize_session w) as [[[]|e] w']; [done|discriminate].
Qed.

Lemma start_test_invariant w :
  0 < QUESTIONS_PER_TEST cfg →
  session_invariant cfg (session_state w) →
  session_invariant cfg (session_state (start_test cfg w).2).
Proof.
  intros Hcount Hw. unfold start_test.
  destruct (load_questions_from_file cfg w) as [r w1] eqn:Hload.
  assert (∃ bank, r = Return bank ∧ session_state w1 = session_state w) as (bank & -> & Hss).
  { rewrite load_questions_from_file_eq in Hload. repeat case_match; simplify_eq; eauto. }
  rewrite (bind_return _ _ _ _ _ Hload).
  destruct bank as [|q bank]; [simpl; by rewrite Hss|]. cbn [truthy negb].
  destruct (random_sample_spec (q :: bank)
              (min (QUESTIONS_PER_TEST cfg) (length (q :: bank))) w1)
    as (positions & g & Hrun & Hlen & _ & HF); [lia|].
  rewrite (bind_return _ _ _ _ _ Hrun). cbn.
  intros v Hv Htrue. split.
  - eexists. by simplify_map_eq.
  - eexists. split; [by simplify_map_eq|].
    rewrite <- (Forall2_length _ _ _ HF), Hlen. simpl. lia.
Qed.

Lemma frontend_step_invariant w w' :
  frontend_step w w' →
  session_invariant cfg (session_state w) →
  session_invariant cfg (session_state w').
Proof.
  intros Hstep Hw v Hv Htrue.
  assert (Hk : ∀ k, k = "exam_started" ∨ k = "start_time" ∨ k = "selected_questions" →
               session_state w' !! k = session_state w !! k).
  { intros k Hk. apply Hstep. intros j ->.
    destruct (widget_key_not_owned j) as (? & ? & ?). by destruct Hk as [?|[?|?]]. }
  rewrite Hk in Hv by eauto. rewrite !Hk by eauto. by apply (Hw v).
Qed.

Lemma reachable_invariant w :
  0 < QUESTIONS_PER_TEST cfg →
  reachable cfg w → session_invariant cfg (session_state w).
Proof.
  intros Hcount. induction 1 as [w Hw|w _ IH|w _ IH|w w' _ IH Hstep].
  - intros v Hv. by rewrite Hw in Hv.
  - by apply initialize_session_invariant.
  - by apply start_test_invariant.
  - by eapply frontend_step_invariant.
Qed.

Lemma invariant_has_questions ss v :
  session_invariant cfg ss → ss !! "exam_started" = Some v → truthy v = true →
  has_questions ss.
Proof.
  intros Hss Hv Htrue. destruct (Hss v Hv Htrue) as (_ & questions & Hsel & Hlen & _).
  exists questions. split; [done|]. intros ->. simpl in Hlen. lia.
Qed.

Lemma triple_main : triple (session_invariant cfg) (main cfg) (λ _ _, True).
Proof.
  unfold main.
  eapply triple_bind; [apply triple_st|]. intros []. cbv beta.
  eapply triple_bind; [apply triple_initialize_session|]. intros []. cbv beta.
  eapply triple_bind; [apply triple_within|].
  { eapply triple_bind; [apply triple_st|]. intros []. apply triple_st. }
  intros []. cbv beta.
  eapply triple_bind with (R := λ _, session_invariant cfg); [apply triple_within|].
  { eapply triple_bind; [apply triple_st|]. intros []. cbv beta.
    eapply triple_bind; [apply triple_button|]. intros clicked. cbv beta.
    eapply triple_bind with (R := λ _, session_invariant cfg).
    - destruct clicked; [|apply triple_skip].
      eapply triple_bind; [apply triple_start_test|]. intros [].
      by apply triple_raise.
    - intros []. cbv beta.
      eapply triple_bind; [apply triple_st|]. intros []. apply triple_st. }
  intros []. cbv beta.
  eapply triple_bind; [apply triple_getattr|]. intros started. cbv beta.
  destruct (truthy started) eqn:Hstarted; [|by intros w Hw].
  eapply triple_consequence with (P' := has_questions) (Q' := λ _ _, True); [| |done].
  2:{ intros ss [Hv Hss]. by eapply invariant_has_questions. }
  eapply triple_bind; [apply triple_within, triple_countdown_timer|]. intros []. cbv beta.
  eapply triple_bind; [apply triple_time_time|]. intros now. cbv beta.
  eapply triple_bind; [apply triple_getattr|]. intros start_time. cbv beta.
  eapply triple_bind; [apply triple_lift, float_sub_safe|]. intros elapsed. cbv beta.
  eapply triple_consequence with (P' := has_questions) (Q' := λ _ _, True); [| |done].
  2:{ by intros ss (_ & _ & ?). }
  apply triple_within.
  eapply triple_bind with (R := λ _, has_questions).
  { eapply triple_bind; [apply triple_getattr|]. intros v. cbv beta.
    eapply triple_consequence; [apply (triple_lift has_questions), py_iter_safe| |].
    - by intros ss [_ ?].
    - intros a ss [_ H]. exact H. }
  intros questions. cbv beta.
  eapply triple_bind; [apply triple_for_each; intros ? []; apply triple_render_question|].
  intros []. cbv beta.
  eapply triple_bind; [apply triple_st|]. intros []. cbv beta.
  eapply triple_bind; [apply triple_submit_button|]. intros submitted. cbv beta.
  destruct submitted; [apply triple_on_submit|by intros w Hw].
Qed.

(** *** Script runs stay within the reachable worlds *)
Lemma reachable_same_session w w' :
  reachable cfg w → session_state w' = session_state w → reachable cfg w'.
Proof.
  intros Hw Hss. eapply reachable_frontend; [exact Hw|]. intros k _. by rewrite Hss.
Qed.

Lemma preserves_reads {A} (c : M A) :
  (∀ w, session_state (c w).2 = session_state w) → preserves cfg c.
Proof. intros H w Hw. by eapply reachable_same_session. Qed.

Lemma preserves_bind {A B} (c : M A) (f : A → M B) :
  preserves cfg c → (∀ a, preserves cfg (f a)) → preserves cfg (c ≫= f).
Proof.
  intros Hc Hf w Hw. specialize (Hc w Hw). unfold mbind, M_bind.
  destruct (c w) as [[a|e] w']; [by apply Hf|done].
Qed.

Lemma preserves_within {A} c (body : M A) : preserves cfg body → preserves cfg (within c body).
Proof.
  intros H w Hw. unfold within.
  assert (Hw0 : reachable cfg (set_page [] w)) by (by eapply reachable_same_session).
  specialize (H _ Hw0). destruct (body (set_page [] w)) as [r w']. simpl in *.
  eapply reachable_same_session; [exact H|done].
Qed.

Lemma preserves_for_each {A S} (xs : list A) (acc : S) body :
  (∀ x acc, preserves cfg (body x acc)) → preserves cfg (for_each xs acc body).
Proof.
  intros Hbody. revert acc. induction xs as [|x xs IH]; intros acc; simpl.
  - by apply preserves_reads.
  - apply preserves_bind; [apply Hbody|]. intros acc'. apply IH.
Qed.

Lemma preserves_radio label options i : preserves cfg (st_radio label options (widget_key i)).
Proof.
  intros w Hw. eapply reachable_frontend; [exact Hw|]. intros k Hk.
  unfold st_radio, st, contains, setattr, session_get, mbind, M_bind; simpl.
  destruct (bool_decide _); simpl; [done|]. by rewrite lookup_insert_ne.
Qed.

Lemma preserves_grade_question iq score : preserves cfg (grade_question iq score).
Proof.
  apply preserves_reads. intros w. destruct iq as [i q].
  destruct (grade_question_reads i q score w w eq_refl) as (r & rendered & -> & _). done.
Qed.

Lemma preserves_grading : preserves cfg grading.
Proof.
  apply preserves_reads. intros w.
  destruct (grading_reads w w eq_refl (λ _, eq_refl)) as (r & rendered & -> & _). done.
Qed.

Lemma preserves_main : preserves cfg (main cfg).
Proof.
  unfold main.
  apply preserves_bind; [by apply preserves_reads|]. intros [].
  apply preserves_bind; [intros w Hw; by apply reachable_initialize|]. intros [].
  apply preserves_bind; [by apply preserves_within, preserves_reads|]. intros [].
  apply preserves_bind.
  { apply preserves_within.
    apply preserves_bind; [by apply preserves_reads|]. intros [].
    apply preserves_bind; [by apply preserves_reads|]. intros clicked.
    apply preserves_bind; [|intros []; by apply preserves_reads].
    destruct clicked; [|by apply preserves_reads].
    apply preserves_bind; [intros w Hw; by apply reachable_start|].
    intros []. by apply preserves_reads. }
  intros []. apply preserves_bind; [apply preserves_reads|].
  { intros w. unfold getattr. by case_match. }
  intros started. destruct (truthy started); [|by apply preserves_reads].
  apply preserves_bind.
  { apply preserves_within, preserves_reads. intros w.
    unfold countdown_timer, getattr, lift, add_int, mbind, M_bind.
    destruct (session_state w !! "start_time") as [v|]; [|done].
    destruct v; simpl; try done; by destruct (numeric _). }
  intros []. apply preserves_bind; [by apply preserves_reads|]. intros now.
  apply preserves_bind; [apply preserves_reads|].
  { intros w. unfold getattr. by case_match. }
  intros start_time. apply preserves_bind; [by apply preserves_reads|]. intros elapsed.
  apply preserves_within. apply preserves_bind.
  { apply preserves_reads. intros w. unfold getattr, lift, mbind, M_bind.
    by destruct (session_state w !! "selected_questions"). }
  intros questions. apply preserves_bind.
  { apply preserves_for_each. intros [i q] [].
    unfold render_question.
    apply preserves_bind; [by apply preserves_reads|]. intros question.
    apply preserves_bind; [by apply preserves_reads|]. intros [].
    apply preserves_bind; [by apply preserves_reads|]. intros options.
    apply preserves_bind; [apply preserves_radio|]. intros ?. by apply preserves_reads. }
  intros []. apply preserves_bind; [by apply preserves_reads|]. intros [].
  apply preserves_bind; [by apply preserves_reads|]. intros submitted.
  destruct submitted; [|by apply preserves_reads].
  unfold on_submit. apply preserves_bind; [|intros; apply preserves_grading].
  by destruct (Qgt_bool _ _); apply preserves_reads.
Qed.

Lemma shows_verdict_inj cards vs vs' :
  Forall2 shows_verdict cards vs → Forall2 shows_verdict cards vs' → vs = vs'.
Proof.
  intros H. revert vs'. induction H as [|card v cards vs Hv _ IH]; intros vs' H'.
  - by inversion H'.
  - inversion H' as [|? v' ? vs'' Hv' Hrest]; subst. f_equal; [|by apply IH].
    destruct Hv as (l & b & ->), Hv' as (l' & b' & [= _ Hneg _]).
    by destruct v, v'.
Qed.

Lemma tier_element_inj t t' : tier_element t = tier_element t' → t = t'.
Proof. by destruct t, t'. Qed.

Lemma displays_inj rendered r r' : displays rendered r → displays rendered r' → r = r'.
Proof.
  intros (cards & -> & Hcards) (cards' & Heq & Hcards').
  apply app_inv_head in Heq. apply app_inj_2 in Heq as [<- Heq]; [|done].
  injection Heq as Hraw Htotal Hpct Htier.
  apply Nat2Z.inj in Hraw, Htotal. apply tier_element_inj in Htier.
  pose proof (shows_verdict_inj _ _ _ Hcards Hcards') as Hvs.
  destruct r, r'. simpl in *. by subst.
Qed.

(** C9. Grading is deterministic: in two worlds that agree on the selected
    questions and on every response, [grading] has the same outcome and
    renders the same elements, whatever else differs (page so far, clock,
    files, generator, other session entries); and what is rendered displays
    at most one grade report. *)
Theorem grading_deterministic w1 w2 :
  session_state w1 !! "selected_questions" = session_state w2 !! "selected_questions" →
  (∀ i, response (session_state w1) i = response (session_state w2) i) →
  ∃ r rendered,
    grading w1 = (r, rendering w1 rendered) ∧
    grading w2 = (r, rendering w2 rendered) ∧
    (∀ report1 report2,
       displays rendered report1 → displays rendered report2 → report1 = report2).
Proof.
  intros Hsel Hresp. destruct (grading_reads w1 w2 Hsel Hresp) as (r & rendered & H1 & H2).
  exists r, rendered. split_and!; [done|done|]. intros ? ?. apply displays_inj.
Qed.

Lemma percentage_eq raw total :
  total ≠ 0 →
  (inject_Z (Z.of_nat raw) / inject_Z (Z.of_nat total) * 100 ==
   100 * inject_Z (Z.of_nat raw) / inject_Z (Z.of_nat total))%Q.
Proof.
  intros Hne. field. intros H. apply Hne.
  unfold Qeq in H. simpl in H. lia.
Qed.

(** C2. On a non-empty list of gradable questions, [grading] returns and
    displays a report whose verdicts are [response i == answer] question by
    question, whose raw score is the number of true verdicts, and whose
    percentage is [100 * raw_score / total_questions].  In particular, with
    answers A, B, C and responses A, X, C the raw score is 2 and the
    percentage is 200/3, displayed as 66.7. *)
Theorem grading_scores :
  (∀ w questions,
     session_state w !! "selected_questions" = Some (PList questions) →
     questions ≠ [] →
     Forall (λ q, gradable q = true) questions →
     ∃ rendered report,
       grading w = (Return tt, rendering w rendered) ∧
       displays rendered report ∧
       report_verdicts report =
         map (λ iq, py_eq (response (session_state w) iq.1) (answer iq.2))
             (enumerate questions) ∧
       raw_score report = length (filter Is_true (report_verdicts report)) ∧
       total_questions report = length questions ∧
       (percentage report ==
        100 * inject_Z (Z.of_nat (raw_score report)) /
        inject_Z (Z.of_nat (total_questions report)))%Q) ∧
  (∀ w qa qb qc,
     session_state w !! "selected_questions" = Some (PList [qa; qb; qc]) →
     Forall (λ q, gradable q = true) [qa; qb; qc] →
     answer qa = PStr "A" → answer qb = PStr "B" → answer qc = PStr "C" →
     response (session_state w) 0 = PStr "A" →
     response (session_state w) 1 = PStr "X" →
     response (session_state w) 2 = PStr "C" →
     ∃ rendered report,
       grading w = (Return tt, rendering w rendered) ∧
       displays rendered report ∧
       raw_score report = 2 ∧
       (percentage report == 200 # 3)%Q ∧
       fixed1 (percentage report) = 667%Z).
Proof.
  split.
  - intros w questions Hsel Hne Hq.
    destruct (grading_gradable w questions Hsel Hne Hq) as (rendered & Hrun & Hshown).
    exists rendered, (grade_of (session_state w) questions).
    split_and!; try done.
    apply percentage_eq. simpl. by destruct questions.
  - intros w qa qb qc Hsel Hq Ha Hb Hc H0 H1 H2.
    destruct (grading_gradable w [qa; qb; qc] Hsel ltac:(done) Hq)
      as (rendered & Hrun & Hshown).
    exists rendered, (grade_of (session_state w) [qa; qb; qc]).
    split_and!; try done; unfold grade_of, verdicts; simpl;
      rewrite Ha, Hb, Hc, H0, H1, H2; done.
Qed.

(** C3. The tier message depends on the raw score only: 25 and above is
    the excellent tier, 15 to 24 the needs-review tier, below 15 the
    needs-practice tier; so 25, 24, 15, 14 give excellent, needs review,
    needs review, needs practice.  The last element a grading renders is the
    tier message of the raw score. *)
Theorem tier_boundaries :
  (∀ score, 25 ≤ score → tier_message score = tier_element Excellent) ∧
  (∀ score, 15 ≤ score < 25 → tier_message score = tier_element NeedsReview) ∧
  (∀ score, score < 15 → tier_message score = tier_element NeedsPractice) ∧
  tier_message 25 = tier_element Excellent ∧
  tier_message 24 = tier_element NeedsReview ∧
  tier_message 15 = tier_element NeedsReview ∧
  tier_message 14 = tier_element NeedsPractice ∧
  (∀ w questions,
     session_state w !! "selected_questions" = Some (PList questions) →
     questions ≠ [] →
     Forall (λ q, gradable q = true) questions →
     ∃ rendered,
       grading w = (Return tt, rendering w rendered) ∧
       last rendered =
         Some (tier_message (count_correct (verdicts (session_state w) questions)))).
Proof.
  split_and!; try done.
  - intros score H. unfold tier_message. by rewrite (proj2 (Nat.leb_le _ _) H).
  - intros score [H1 H2]. unfold tier_message.
    rewrite (proj2 (Nat.leb_gt _ _) H2). by rewrite (proj2 (Nat.leb_le _ _) H1).
  - intros score H. unfold tier_message.
    rewrite (proj2 (Nat.leb_gt 25 score)) by lia.
    by rewrite (proj2 (Nat.leb_gt 15 score)) by lia.
  - intros w questions Hsel Hne Hq.
    destruct (grading_gradable w questions Hsel Hne Hq)
      as (rendered & Hrun & cards & -> & _).
    eexists. split; [done|]. rewrite !last_app. simpl.
    by rewrite tier_message_tier_of.
Qed.

(** C4, as amended.  On a non-empty list of gradable questions [grading]
    returns without raising.  Nothing guards the division: on an empty list
    of selected questions [grading] raises [ZeroDivisionError]. *)
Theorem grading_division w :
  (∀ questions,
     session_state w !! "selected_questions" = Some (PList questions) →
     questions ≠ [] →
     Forall (λ q, gradable q = true) questions →
     (grading w).1 = Return tt) ∧
  (session_state w !! "selected_questions" = Some (PList []) →
   (grading w).1 = Raise ZeroDivisionError).
Proof.
  split.
  - intros questions Hsel Hne Hq.
    destruct (grading_gradable w questions Hsel Hne Hq) as (rendered & -> & _). done.
  - intros Hsel. by rewrite grading_empty.
Qed.

Lemma reachable_run_script w :
  reachable cfg w → reachable cfg (run_script cfg w).2.
Proof.
  intros Hw. unfold run_script.
  assert (H0 : reachable cfg (fresh_page w)) by (by eapply reachable_same_session).
  pose proof (preserves_main _ H0) as H1.
  destruct (main cfg (fresh_page w)) as [[[]|e] w1]; [done|].
  destruct e; try done. simpl in H1.
  apply preserves_main. by eapply reachable_same_session.
Qed.

(** Why the answer has to differ from [None] for a missing selection to be
    wrong: a record whose answer is [None] (JSON [null]) compares equal to
    it. *)
Remark null_answer_equals_no_selection w i q score t :
  getitem q "answer" = Return PNone →
  getitem q "question" = Return t →
  response (session_state w) i = PNone →
  ∃ card,
    grade_question (i, q) score w = (Return (score + 1), rendering w [card]) ∧
    shows_verdict card true.
Proof.
  intros Ha Ht Hresp.
  assert (gradable q = true) as Hq by (unfold gradable; by rewrite Ha, Ht).
  destruct (grade_question_gradable i q score w Hq) as (card & Hrun & Hcard).
  unfold answer in Hrun, Hcard. rewrite Ha, Hresp in Hrun, Hcard. eauto.
Qed.

End Proofs.


(** C10. In every world reachable from a new browser session through
    [initialize_session], [start_test] and the changes the browser makes
    between runs, a true ["exam_started"] comes with a ["start_time"] that is
    a timestamp (not [None]) and a non-empty list of at most 30 selected
    questions; consequently a run of [main], which grades only under
    ["exam_started"], never raises [ZeroDivisionError]. *)
Theorem started_session_has_questions `{lib : PyLib} w :
  reachable source_config w →
  (∀ v, session_state w !! "exam_started" = Some v → truthy v = true →
     (∃ t, session_state w !! "start_time" = Some (PFloat t)) ∧
     (∃ questions,
        session_state w !! "selected_questions" = Some (PList questions) ∧
        questions ≠ [] ∧ length questions ≤ 30)) ∧
  (main source_config w).1 ≠ Raise ZeroDivisionError.
Proof.
  intros Hw. apply (reachable_invariant source_config) in Hw; [|simpl; lia].
  split.
  - intros v Hv Htrue. destruct (Hw v Hv Htrue) as (Ht & questions & Hsel & Hlen & Hmax).
    split; [done|]. exists questions. split_and!; [done| |done].
    intros ->. simpl in Hlen. lia.
  - pose proof (triple_main source_config w Hw) as H.
    destruct (main source_config w) as [[[]|e] w']; simpl; congruence.
Qed.

(** * Further properties of the script *)

Section Runs.
Context `{lib : PyLib} (cfg : config).

Lemma start_test_world w content bank :
  files w !! QUESTION_FILE cfg = Some content →
  json_loads content = Some (PList bank) →
  bank ≠ [] →
  let count := min (QUESTIONS_PER_TEST cfg) (length bank) in
  let drawn := sample_positions (gen w) (length bank) count in
  start_test cfg w =
    (Return tt,
     set_session_state
       (<["exam_started" := PBool true]>
          (<["start_time" := PFloat (clock w)]>
             (<["selected_questions" := PList (omap (λ i, bank !! i) drawn.1)]>
                (session_state w))))
       (set_gen drawn.2 w)).
Proof.
  intros Hfile Hjson Hne count drawn. unfold start_test.
  erewrite bind_return; last first.
  { rewrite load_questions_from_file_eq, Hfile, Hjson. done. }
  destruct bank as [|q0 bank']; [done|]. cbn [truthy negb].
  unfold random_sample, mbind, M_bind. rewrite decide_True by (simpl; lia).
  fold count. fold drawn. by destruct drawn as [positions g].
Qed.

(** X1. With a non-empty question bank, [start_test] returns, sets
    ["exam_started"] to [True] and ["start_time"] to the clock reading, and
    writes no session entry other than the three it owns: stored widget
    values, the page, the files and the clock are as before. *)
Theorem start_test_starts w content bank :
  files w !! QUESTION_FILE cfg = Some content →
  json_loads content = Some (PList bank) →
  bank ≠ [] →
  let w' := (start_test cfg w).2 in
  (start_test cfg w).1 = Return tt ∧
  session_state w' !! "exam_started" = Some (PBool true) ∧
  session_state w' !! "start_time" = Some (PFloat (clock w)) ∧
  (∀ k, ¬ owned k → session_state w' !! k = session_state w !! k) ∧
  page w' = page w ∧ files w' = files w ∧ clock w' = clock w.
Proof.
  intros Hfile Hjson Hne. cbv zeta.
  rewrite (start_test_world w content bank Hfile Hjson Hne). simpl.
  split_and!; [done|by simplify_map_eq|by simplify_map_eq| |done..].
  intros k Hk. unfold owned in Hk.
  by rewrite !lookup_insert_ne by (intros <-; tauto).
Qed.

(** X2. What [start_test] stores with a non-empty bank does not depend on
    the session it starts from: from two worlds with the same file, clock and
    generator state, the three owned entries and the generator state come
    out the same, whatever the sessions and pages held. *)
Theorem start_test_forgets_previous w1 w2 content bank :
  files w1 !! QUESTION_FILE cfg = Some content →
  files w2 !! QUESTION_FILE cfg = Some content →
  json_loads content = Some (PList bank) →
  bank ≠ [] →
  clock w1 = clock w2 → gen w1 = gen w2 →
  let w1' := (start_test cfg w1).2 in
  let w2' := (start_test cfg w2).2 in
  (∀ k, owned k → session_state w1' !! k = session_state w2' !! k) ∧
  gen w1' = gen w2'.
Proof.
  intros Hfile1 Hfile2 Hjson Hne Hclock Hgen. cbv zeta.
  rewrite (start_test_world w1 content bank Hfile1 Hjson Hne).
  rewrite (start_test_world w2 content bank Hfile2 Hjson Hne).
  simpl. rewrite Hclock, Hgen. split; [|done].
  intros k [Hk|[Hk|Hk]]; subst k; by simplify_map_eq.
Qed.

Lemma omap_lookup_seq {A} (pre l : list A) :
  omap (λ i, (pre ++ l) !! i) (seq (length pre) (length l)) = l.
Proof.
  revert pre. induction l as [|x l IH]; intros pre; [done|]. simpl.
  rewrite list_lookup_middle by done. f_equal.
  specialize (IH (pre ++ [x])). rewrite length_app in IH. simpl in IH.
  rewrite Nat.add_1_r, <- app_assoc in IH. exact IH.
Qed.

Lemma positions_full (positions : list nat) n :
  NoDup positions → length positions = n → Forall (λ i, i < n) positions →
  positions ≡ₚ seq 0 n.
Proof.
  intros Hnd Hlen Hlt. apply submseteq_length_Permutation.
  - apply NoDup_submseteq; [done|]. intros i Hi.
    rewrite Forall_forall in Hlt. apply elem_of_seq. specialize (Hlt i Hi). lia.
  - rewrite length_seq. lia.
Qed.

(** X3. When the bank has at most [QUESTIONS_PER_TEST] questions (and at
    least one), [start_test] selects all of them: the stored list is a
    permutation of the bank. *)
Theorem start_test_uses_small_bank w content bank :
  files w !! QUESTION_FILE cfg = Some content →
  json_loads content = Some (PList bank) →
  bank ≠ [] →
  length bank ≤ QUESTIONS_PER_TEST cfg →
  ∃ selected,
    session_state (start_test cfg w).2 !! "selected_questions" = Some (PList selected) ∧
    selected ≡ₚ bank.
Proof.
  intros Hfile Hjson Hne Hsmall.
  rewrite (start_test_world w content bank Hfile Hjson Hne). simpl.
  eexists. split; [by simplify_map_eq|].
  replace (min (QUESTIONS_PER_TEST cfg) (length bank)) with (length bank) by lia.
  rewrite (positions_full _ (length bank)).
  - pose proof (omap_lookup_seq [] bank) as H. simpl in H. by rewrite H.
  - by apply sample_positions_NoDup.
  - by apply sample_positions_length.
  - by apply sample_positions_lt.
Qed.

(** X4. [start_test] returns whenever the question file is absent or
    decodes, whatever it decodes to (a list, empty or not, or something that
    is not a list): the loader reports what it cannot use, and
    [random.sample] is never asked for more questions than the bank holds.
    It leaves the files, the clock and the pressed buttons as they were and
    renders at most one element, an error message.  A file on which the
    decoder fails is left out: [json.load] can fail there with exceptions
    other than the [JSONDecodeError] that the loader handles. *)
Theorem start_test_returns_on_decoded_file w :
  files w !! QUESTION_FILE cfg = None ∨
  (∃ content v, files w !! QUESTION_FILE cfg = Some content ∧
                json_loads content = Some v) →
  let w' := (start_test cfg w).2 in
  (start_test cfg w).1 = Return tt ∧
  files w' = files w ∧ clock w' = clock w ∧ pressed w' = pressed w ∧
  (page w' = page w ∨ ∃ message, page w' = page w ++ [StError message]).
Proof.
  intros Hfile. cbv zeta.
  destruct Hfile as [Hfile|(content & v & Hfile & Hjson)].
  { unfold start_test, mbind, M_bind. rewrite load_questions_from_file_eq, Hfile.
    simpl. split_and!; eauto. }
  assert (Hv : (∃ q bank, v = PList (q :: bank)) ∨ ∀ q bank, v ≠ PList (q :: bank)).
  { destruct v as [| | | | |[|q bank]|]; eauto. }
  destruct Hv as [(q & bank & ->)|Hv].
  - rewrite (start_test_world w content (q :: bank) Hfile Hjson ltac:(done)). simpl.
    split_and!; eauto.
  - unfold start_test, mbind, M_bind. rewrite load_questions_from_file_eq, Hfile, Hjson.
    destruct v as [| | | | |[|q bank]|]; simpl; try (split_and!; by eauto).
    by destruct (Hv q bank).
Qed.

(** X5. [initialize_session] returns and only fills in what is missing:
    every entry of the session is kept with its value, each of the three
    owned keys ends up holding its old value or else its default ([False],
    the empty list, [None]), nothing is rendered, and running it a second
    time changes nothing. *)
Theorem initialize_session_defaults w :
  let w' := (initialize_session w).2 in
  (initialize_session w).1 = Return tt ∧
  (∀ k v, session_state w !! k = Some v → session_state w' !! k = Some v) ∧
  session_state w' !! "exam_started" =
    Some (default (PBool false) (session_state w !! "exam_started")) ∧
  session_state w' !! "selected_questions" =
    Some (default (PList []) (session_state w !! "selected_questions")) ∧
  session_state w' !! "start_time" =
    Some (default PNone (session_state w !! "start_time")) ∧
  (∀ k, ¬ owned k → session_state w' !! k = session_state w !! k) ∧
  page w' = page w ∧
  initialize_session w' = (Return tt, w').
Proof.
  cbv zeta.
  unfold initialize_session, contains, setattr, mbind, M_bind, mret, M_ret. simpl.
  destruct (session_state w !! "exam_started") as [v1|] eqn:H1;
  destruct (session_state w !! "selected_questions") as [v2|] eqn:H2;
  destruct (session_state w !! "start_time") as [v3|] eqn:H3;
  repeat (rewrite ?lookup_insert_ne, ?lookup_insert_eq, ?H1, ?H2, ?H3 by done;
          cbn [bool_decide decide_rel is_Some_dec negb session_state set_session_state
               fst snd default from_option]).
  all: split_and!; try done.
  all: try (intros k v Hk; repeat (rewrite lookup_insert_ne; [|intros <-; congruence]);
            done).
  all: intros k Hk; unfold owned in Hk; by rewrite !lookup_insert_ne by (intros <-; tauto).
Qed.

Lemma enumerate_from_lookup {A} (xs : list A) k i x :
  xs !! i = Some x → enumerate_from k xs !! i = Some (k + i, x).
Proof.
  revert k i. induction xs as [|y xs IH]; intros k [|i] H; simplify_eq/=.
  - by rewrite Nat.add_0_r.
  - rewrite (IH (S k) i) by done. f_equal. f_equal. lia.
Qed.

Lemma enumerate_from_length {A} (xs : list A) k : length (enumerate_from k xs) = length xs.
Proof. revert k. induction xs as [|y xs IH]; intros k; simpl; [done|]. by rewrite IH. Qed.

Lemma enumerate_from_app {A} (xs ys : list A) k :
  enumerate_from k (xs ++ ys) = enumerate_from k xs ++ enumerate_from (k + length xs) ys.
Proof.
  revert k. induction xs as [|x xs IH]; intros k; simpl.
  - by rewrite Nat.add_0_r.
  - rewrite IH. do 3 f_equal. lia.
Qed.

Lemma verdicts_length ss questions : length (verdicts ss questions) = length questions.
Proof. unfold verdicts, enumerate. by rewrite length_map, enumerate_from_length. Qed.

Lemma verdicts_lookup ss questions i q :
  questions !! i = Some q →
  verdicts ss questions !! i = Some (py_eq (response ss i) (answer q)).
Proof.
  intros H. unfold verdicts, enumerate.
  by rewrite list_lookup_fmap, (enumerate_from_lookup _ 0 i q H).
Qed.

Lemma count_correct_le vs : count_correct vs ≤ length vs.
Proof. unfold count_correct. apply length_filter. Qed.

Lemma count_correct_all vs : Forall (λ v, v = true) vs → count_correct vs = length vs.
Proof.
  induction 1 as [|v vs -> _ IH]; [done|]. rewrite count_correct_cons, IH. simpl. lia.
Qed.

Lemma count_correct_none vs : Forall (λ v, v = false) vs → count_correct vs = 0.
Proof.
  induction 1 as [|v vs -> _ IH]; [done|]. by rewrite count_correct_cons, IH.
Qed.

Lemma percentage_bounds raw total :
  raw ≤ total → 0 < total →
  (0 <= inject_Z (Z.of_nat raw) / inject_Z (Z.of_nat total) * 100 <= 100)%Q.
Proof.
  intros Hle Hpos.
  assert (Hb : (0 < inject_Z (Z.of_nat total))%Q).
  { change 0%Q with (inject_Z 0). rewrite <- Zlt_Qlt. lia. }
  assert (H0 : (0 <= inject_Z (Z.of_nat raw) / inject_Z (Z.of_nat total))%Q).
  { apply Qle_shift_div_l; [done|]. rewrite Qmult_0_l.
    change 0%Q with (inject_Z 0). rewrite <- Zle_Qle. lia. }
  assert (H1 : (inject_Z (Z.of_nat raw) / inject_Z (Z.of_nat total) <= 1)%Q).
  { apply Qle_shift_div_r; [done|]. rewrite Qmult_1_l. rewrite <- Zle_Qle. lia. }
  split.
  - apply Qmult_le_0_compat; [done|]. by unfold Qle.
  - rewrite <- (Qmult_1_l 100) at 2. apply Qmult_le_compat_r; [done|]. by unfold Qle.
Qed.

(** X6. On a non-empty list of gradable questions the displayed raw score
    is at most the displayed total, the total is the number of selected
    questions, and the percentage lies between 0 and 100. *)
Theorem grading_score_bounds w questions :
  session_state w !! "selected_questions" = Some (PList questions) →
  questions ≠ [] →
  Forall (λ q, gradable q = true) questions →
  ∃ rendered report,
    grading w = (Return tt, rendering w rendered) ∧
    displays rendered report ∧
    raw_score report ≤ total_questions report ∧
    total_questions report = length questions ∧
    (0 <= percentage report <= 100)%Q.
Proof.
  intros Hsel Hne Hq.
  destruct (grading_gradable w questions Hsel Hne Hq) as (rendered & Hrun & Hshown).
  exists rendered, (grade_of (session_state w) questions).
  assert (Hle : count_correct (verdicts (session_state w) questions) ≤ length questions).
  { rewrite <- (verdicts_length (session_state w)). apply count_correct_le. }
  split_and!; [done|done|exact Hle|done| |].
  all: apply percentage_bounds; [exact Hle|destruct questions; [done|simpl; lia]].
Qed.

(** X7. The tier thresholds are absolute scores, not shares of the test: a
    graded test of fewer than 25 questions never ends on the excellent
    message, and one of fewer than 15 questions always ends on the
    needs-practice message, whatever the answers. *)
Theorem short_test_tiers w questions :
  session_state w !! "selected_questions" = Some (PList questions) →
  questions ≠ [] →
  Forall (λ q, gradable q = true) questions →
  ∃ rendered t,
    grading w = (Return tt, rendering w rendered) ∧
    last rendered = Some (tier_element t) ∧
    (length questions < 25 → t ≠ Excellent) ∧
    (length questions < 15 → t = NeedsPractice).
Proof.
  intros Hsel Hne Hq.
  destruct (grading_gradable w questions Hsel Hne Hq) as (rendered & Hrun & cards & -> & _).
  assert (Hle : count_correct (verdicts (session_state w) questions) ≤ length questions).
  { rewrite <- (verdicts_length (session_state w)). apply count_correct_le. }
  eexists _, (tier_of (count_correct (verdicts (session_state w) questions))).
  split_and!; [done| | |].
  - by rewrite !last_app.
  - intros Hlen. unfold tier_of. rewrite (proj2 (Nat.leb_gt _ _)) by lia. by case_match.
  - intros Hlen. unfold tier_of.
    rewrite (proj2 (Nat.leb_gt 25 _)) by lia. by rewrite (proj2 (Nat.leb_gt 15 _)) by lia.
Qed.

(** X8. The two extreme submissions.  When every response equals its
    answer the raw score is the number of questions and the percentage 100;
    when no question has a selection (and no answer is [None]) the raw score
    and the percentage are 0 and the tier is needs practice. *)
Theorem perfect_and_blank_submissions w questions :
  session_state w !! "selected_questions" = Some (PList questions) →
  questions ≠ [] →
  Forall (λ q, gradable q = true) questions →
  ∃ rendered report,
    grading w = (Return tt, rendering w rendered) ∧
    displays rendered report ∧
    ((∀ i q, questions !! i = Some q →
             py_eq (response (session_state w) i) (answer q) = true) →
     raw_score report = length questions ∧ (percentage report == 100)%Q) ∧
    ((∀ i q, questions !! i = Some q →
             response (session_state w) i = PNone ∧ answer q ≠ PNone) →
     raw_score report = 0 ∧ (percentage report == 0)%Q ∧
     report_tier report = NeedsPractice).
Proof.
  intros Hsel Hne Hq.
  destruct (grading_gradable w questions Hsel Hne Hq) as (rendered & Hrun & Hshown).
  exists rendered, (grade_of (session_state w) questions).
  assert (Hpos : length questions ≠ 0) by (by destruct questions).
  split_and!; [done|done| |].
  - intros Hall.
    assert (Hraw : count_correct (verdicts (session_state w) questions) = length questions).
    { rewrite <- (verdicts_length (session_state w)). apply count_correct_all.
      apply Forall_lookup. intros i v Hv.
      destruct (lookup_lt_is_Some_2 questions i) as [q Hi].
      { rewrite <- (verdicts_length (session_state w)). by eapply lookup_lt_Some. }
      rewrite (verdicts_lookup _ _ _ _ Hi) in Hv. injection Hv as <-. by eapply Hall. }
    unfold grade_of. simpl. rewrite Hraw. split; [done|].
    field. intros H. apply Hpos. unfold Qeq in H. simpl in H. lia.
  - intros Hblank.
    assert (Hraw : count_correct (verdicts (session_state w) questions) = 0).
    { apply count_correct_none. apply Forall_lookup. intros i v Hv.
      destruct (lookup_lt_is_Some_2 questions i) as [q Hi].
      { rewrite <- (verdicts_length (session_state w)). by eapply lookup_lt_Some. }
      rewrite (verdicts_lookup _ _ _ _ Hi) in Hv. injection Hv as <-.
      destruct (Hblank i q Hi) as [-> Ha]. by apply py_eq_None. }
    unfold grade_of. simpl. rewrite Hraw. split_and!; [done| |done].
    simpl. field. intros H. apply Hpos. unfold Qeq in H. simpl in H. lia.
Qed.

Lemma for_each_app {A S} (xs ys : list A) (acc : S) body w :
  for_each (xs ++ ys) acc body w =
  (for_each xs acc body ≫= λ acc', for_each ys acc' body) w.
Proof.
  revert acc w. induction xs as [|x xs IH]; intros acc w; [done|]. simpl.
  rewrite bind_assoc. unfold mbind, M_bind.
  destruct (body x acc w) as [[acc'|e] w']; [|done]. apply IH.
Qed.

Lemma grade_question_malformed i q score w :
  gradable q = false →
  ∃ e,
    grade_question (i, q) score w = (Raise e, w) ∧
    (getitem q "answer" = Raise e ∨
     ∃ a, getitem q "answer" = Return a ∧ getitem q "question" = Raise e).
Proof.
  unfold gradable, grade_question, session_get, lift, mbind, M_bind.
  destruct (getitem q "answer") as [a|e] eqn:Ha.
  2:{ intros _. exists e. split; [done|by left]. }
  destruct (getitem q "question") as [t|e] eqn:Ht; [done|].
  intros _. exists e. split; [done|]. right. by exists a.
Qed.

(** X9. Grading stops at the first record it cannot grade.  When the
    selected questions are gradable up to a record [q] that is not, [grading]
    raises after rendering the cards of the questions before [q] and nothing
    else, so no score is shown; the exception is a [TypeError] or the
    [KeyError] of the missing key, ['answer'] being looked up before
    ['question']. *)
Theorem grading_stops_at_malformed_record w good q rest :
  session_state w !! "selected_questions" = Some (PList (good ++ q :: rest)) →
  Forall (λ q, gradable q = true) good →
  gradable q = false →
  ∃ e cards,
    grading w =
      (Raise e, rendering w ([StBalloons; StWrite [Lit "## 📝 Test Results"]] ++ cards)) ∧
    Forall2 shows_verdict cards (verdicts (session_state w) good) ∧
    (e = TypeError ∨ e = KeyError "answer" ∨ e = KeyError "question") ∧
    (∀ kvs, q = PDict kvs → dict_lookup "answer" kvs = None → e = KeyError "answer") ∧
    (∀ kvs a, q = PDict kvs → dict_lookup "answer" kvs = Some a → e = KeyError "question").
Proof.
  intros Hsel Hgood Hbad. unfold grading.
  rewrite bind_st. cbv beta. rewrite bind_st. cbv beta. rewrite rendering_app.
  rewrite bind_assoc, (bind_getattr_rendering _ _ _ _ _ Hsel). cbv beta.
  cbn [py_iter]. rewrite bind_lift. cbv beta.
  unfold enumerate. rewrite enumerate_from_app.
  destruct (grading_loop_gradable good 0 0
              (rendering w ([StBalloons] ++ [StWrite [Lit "## 📝 Test Results"]])) Hgood)
    as (cards & Hloop & Hcards).
  change (session_state (rendering w ?a)) with (session_state w) in Hloop, Hcards.
  fold (enumerate good) in Hloop, Hcards.
  fold (verdicts (session_state w) good) in Hloop, Hcards.
  destruct (grade_question_malformed (0 + length good) q
              (0 + count_correct (verdicts (session_state w) good))
              (rendering w (([StBalloons] ++ [StWrite [Lit "## 📝 Test Results"]]) ++ cards))
              Hbad) as (e & Hq & He).
  exists e, cards. split_and!.
  - erewrite bind_raise; [done|].
    rewrite for_each_app. unfold enumerate in Hloop.
    rewrite (bind_return _ _ _ _ _ Hloop), rendering_app. simpl.
    by rewrite (bind_raise _ _ _ _ _ Hq).
  - done.
  - unfold getitem in He.
    destruct He as [He|(a & _ & He)]; repeat case_match; simplify_eq; eauto.
  - intros kvs -> Hkvs. simpl in He. rewrite Hkvs in He.
    destruct He as [He|(a & He & _)]; by simplify_eq.
  - intros kvs a -> Hkvs. simpl in He. rewrite Hkvs in He.
    destruct He as [He|(a' & _ & He)]; [done|]. case_match; by simplify_eq.
Qed.

Lemma with_default_run {B} k v (g : unit → M B) w :
  (contains k ≫= λ present, (if negb present then setattr k v else mret tt) ≫= g) w =
  g tt (set_session_state (with_default k v (session_state w)) w).
Proof.
  rewrite bind_contains. unfold with_default.
  destruct (session_state w !! k) as [v'|] eqn:Hk.
  - rewrite bool_decide_eq_true_2 by eauto. simpl.
    by rewrite bind_mret, set_session_state_id.
  - rewrite bool_decide_eq_false_2 by (by intros [? ?]). done.
Qed.

Lemma with_default_last k v w :
  (contains k ≫= λ present, if negb present then setattr k v else mret tt) w =
  (Return tt, set_session_state (with_default k v (session_state w)) w).
Proof.
  rewrite bind_contains. unfold with_default.
  destruct (session_state w !! k) as [v'|] eqn:Hk.
  - rewrite bool_decide_eq_true_2 by eauto. simpl. by rewrite set_session_state_id.
  - rewrite bool_decide_eq_false_2 by (by intros [? ?]). done.
Qed.

Lemma initialize_session_eq w :
  initialize_session w = (Return tt, set_session_state (initialized (session_state w)) w).
Proof.
  unfold initialize_session.
  rewrite with_default_run. cbv beta. rewrite with_default_run. cbv beta.
  by rewrite with_default_last.
Qed.

Lemma main_released w :
  "🚀 Start New Test" ∉ pressed w →
  main cfg w =
    (started ← getattr "exam_started"; page_below_sidebar cfg started)
      (rendering (set_session_state (initialized (session_state w)) w) (chrome cfg)).
Proof.
  intros Hbutton. unfold main.
  rewrite bind_st. cbv beta.
  erewrite bind_return by apply initialize_session_eq.
  erewrite bind_within; last done.
  erewrite bind_within; last first.
  { rewrite bind_st. cbv beta. rewrite bind_button_released by done.
    rewrite bind_mret, bind_st. cbv beta. by rewrite st_run, !rendering_app. }
  unfold page_below_sidebar, form_body. f_equal.
  unfold rendering, set_page, set_session_state, chrome. simpl.
  by rewrite <- !app_assoc.
Qed.

Lemma with_default_lookup k v ss k' :
  with_default k v ss !! k' =
    if decide (k = k') then Some (default v (ss !! k)) else ss !! k'.
Proof.
  unfold with_default. destruct (ss !! k) as [v'|] eqn:Hk; case_decide; subst; simpl.
  - done.
  - done.
  - by rewrite lookup_insert_eq.
  - by rewrite lookup_insert_ne.
Qed.

Lemma with_default_keeps k v ss k' v' :
  ss !! k' = Some v' → with_default k v ss !! k' = Some v'.
Proof.
  intros H. rewrite with_default_lookup. case_decide; [|done]. subst. by rewrite H.
Qed.

Lemma initialized_keeps ss k v : ss !! k = Some v → initialized ss !! k = Some v.
Proof. intros H. unfold initialized. by do 3 apply with_default_keeps. Qed.

Lemma initialized_other ss k :
  k ≠ "exam_started" → k ≠ "selected_questions" → k ≠ "start_time" →
  initialized ss !! k = ss !! k.
Proof.
  intros H1 H2 H3. unfold initialized. rewrite !with_default_lookup.
  by repeat case_decide.
Qed.

Lemma initialized_exam_started ss :
  initialized ss !! "exam_started" = Some (default (PBool false) (ss !! "exam_started")).
Proof. unfold initialized. rewrite !with_default_lookup. by repeat case_decide. Qed.

Lemma initialized_id ss v1 v2 v3 :
  ss !! "exam_started" = Some v1 → ss !! "selected_questions" = Some v2 →
  ss !! "start_time" = Some v3 → initialized ss = ss.
Proof.
  intros H1 H2 H3. unfold initialized, with_default. by rewrite H1, H2, H3.
Qed.

Lemma register_from_keeps n : ∀ i ss k v,
  ss !! k = Some v → register_from i n ss !! k = Some v.
Proof.
  induction n as [|n IH]; intros i ss k v H; simpl; [done|].
  by apply IH, with_default_keeps.
Qed.

Lemma register_from_other n : ∀ i ss k,
  (∀ j, k ≠ widget_key j) → register_from i n ss !! k = ss !! k.
Proof.
  induction n as [|n IH]; intros i ss k H; simpl; [done|].
  rewrite IH by done. rewrite with_default_lookup. case_decide; [|done].
  by destruct (H i).
Qed.

Lemma register_from_response n : ∀ i ss j,
  response (register_from i n ss) j = response ss j.
Proof.
  induction n as [|n IH]; intros i ss j; simpl; [done|].
  rewrite IH. unfold response. rewrite with_default_lookup. case_decide as Hk; [|done].
  rewrite <- Hk. by destruct (ss !! widget_key i).
Qed.

Lemma register_from_registered n : ∀ i ss j,
  i ≤ j < i + n → is_Some (register_from i n ss !! widget_key j).
Proof.
  induction n as [|n IH]; intros i ss j Hj; simpl; [lia|].
  destruct (decide (j = i)) as [->|Hne].
  - assert (is_Some (with_default (widget_key i) PNone ss !! widget_key i)) as [v Hv].
    { rewrite with_default_lookup. rewrite decide_True by done. eauto. }
    rewrite (register_from_keeps _ _ _ _ _ Hv). eauto.
  - apply IH. lia.
Qed.

Lemma render_question_form i q w :
  renderable q = true →
  render_question (i, q) tt w =
    (Return tt,
     rendering (set_session_state (with_default (widget_key i) PNone (session_state w)) w)
       (question_form (i, q))).
Proof.
  unfold renderable, render_question, question_form, field. simpl.
  destruct (getitem q "question") as [t|] eqn:Ht; [|done].
  destruct (getitem q "options") as [o|] eqn:Ho; [|done]. intros _.
  rewrite bind_lift. cbv beta. rewrite bind_st. cbv beta.
  rewrite bind_lift. cbv beta.
  unfold st_radio, contains, setattr, session_get, st, mbind, M_bind, mret, M_ret.
  cbn [session_state rendering set_page]. unfold with_default.
  destruct (session_state w !! widget_key i) as [v|] eqn:Hkey.
  - rewrite bool_decide_eq_true_2 by eauto. cbn.
    unfold rendering, set_page, set_session_state. simpl. by rewrite <- !app_assoc.
  - rewrite bool_decide_eq_false_2 by (by intros [? ?]). cbn.
    unfold rendering, set_page, set_session_state. simpl. by rewrite <- !app_assoc.
Qed.

Lemma render_loop_form questions : ∀ i w,
  Forall (λ q, renderable q = true) questions →
  for_each (enumerate_from i questions) tt render_question w =
    (Return tt,
     rendering (set_session_state (register_from i (length questions) (session_state w)) w)
       (concat (question_form <$> enumerate_from i questions))).
Proof.
  induction questions as [|q questions IH]; intros i w Hq; simpl.
  - by rewrite set_session_state_id, rendering_nil.
  - apply Forall_cons in Hq as [Hq Hrest].
    rewrite (bind_return _ _ _ _ _ (render_question_form i q w Hq)).
    rewrite (IH (S i) _ Hrest). f_equal.
    unfold rendering, set_page, set_session_state. simpl. by rewrite <- !app_assoc.
Qed.

Lemma main_started w t0 questions :
  session_state w !! "exam_started" = Some (PBool true) →
  session_state w !! "start_time" = Some (PFloat t0) →
  session_state w !! "selected_questions" = Some (PList questions) →
  "🚀 Start New Test" ∉ pressed w →
  main cfg w =
    within (Form "test_form")
      (form_body (Qgt_bool (clock w - t0) (inject_Z (TEST_DURATION_MINUTES cfg * 60))))
      (rendering w
         (chrome cfg ++
          [Within Col2
             [ComponentsHtml ((t0 + inject_Z (TEST_DURATION_MINUTES cfg * 60)) * 1000)]])).
Proof.
  intros Hstarted Hstart Hsel Hbutton.
  rewrite (main_released w Hbutton).
  rewrite (initialized_id _ _ _ _ Hstarted Hsel Hstart), set_session_state_id.
  rewrite (bind_getattr_rendering _ _ _ _ _ Hstarted). cbv beta.
  unfold page_below_sidebar. cbn [truthy].
  erewrite bind_within; last first.
  { unfold countdown_timer. rewrite (bind_getattr _ _ _ (set_page [] _) Hstart).
    cbn [add_int numeric]. by rewrite bind_lift, st_run. }
  rewrite rendering_app, bind_time_time.
  rewrite (bind_getattr_rendering _ _ _ _ _ Hstart). cbv beta.
  cbn [float_sub numeric]. by rewrite bind_lift.
Qed.

Lemma form_body_run is_late w questions :
  session_state w !! "selected_questions" = Some (PList questions) →
  Forall (λ q, renderable q = true) questions →
  form_body is_late w =
    (if bool_decide ("Submit Test" ∈ pressed w) then on_submit is_late else mret tt)
      (rendering
         (set_session_state (register_from 0 (length questions) (session_state w)) w)
         (concat (question_form <$> enumerate questions) ++
          [StMarkdown [Lit "---"]; StFormSubmitButton "Submit Test"])).
Proof.
  intros Hsel Hq. unfold form_body.
  rewrite bind_assoc, (bind_getattr _ _ _ _ Hsel). cbv beta.
  cbn [py_iter]. rewrite bind_lift. cbv beta.
  rewrite (bind_return _ _ _ _ _ (render_loop_form questions 0 w Hq)).
  rewrite bind_st. cbv beta. rewrite rendering_app.
  unfold st_form_submit_button. rewrite bind_assoc, bind_st. cbv beta.
  rewrite rendering_app. unfold was_pressed at 1. unfold mbind at 1, M_bind at 1.
  cbv beta iota. by rewrite <- app_assoc.
Qed.

(** X10. On a session that is not started and with the start button not
    pressed, [main] returns, renders the page header, the sidebar and the
    welcome text, and leaves the session as [initialize_session] makes it:
    nothing stored is changed. *)
Theorem main_welcomes w :
  "🚀 Start New Test" ∉ pressed w →
  truthy (default (PBool false) (session_state w !! "exam_started")) = false →
  ∃ w',
    main cfg w = (Return tt, w') ∧
    page w' = page w ++ chrome cfg ++ [StMarkdown welcome] ∧
    session_state w' = initialized (session_state w) ∧
    (∀ k v, session_state w !! k = Some v → session_state w' !! k = Some v) ∧
    session_state w' !! "exam_started" =
      Some (default (PBool false) (session_state w !! "exam_started")).
Proof.
  intros Hbutton Hfalse. rewrite (main_released w Hbutton).
  erewrite bind_getattr; last by apply initialized_exam_started.
  unfold page_below_sidebar. rewrite Hfalse, st_run, rendering_app.
  eexists. split; [done|]. simpl. split_and!; [done|done| |].
  - intros k v. apply initialized_keeps.
  - apply initialized_exam_started.
Qed.

(** X11. On a started session of renderable questions, with no button
    pressed, [main] returns and renders, below the header and the sidebar,
    the countdown and the form: per question its numbered text (from 1), its
    radio group under the key [q_<i>] (from 0) and a spacer, then the rule
    and the submit button; nothing is graded.  The started flag, the selected
    questions and the start time are left as they were, and every question
    has its key in the session afterwards. *)
Theorem main_renders_form w t0 questions :
  session_state w !! "exam_started" = Some (PBool true) →
  session_state w !! "start_time" = Some (PFloat t0) →
  session_state w !! "selected_questions" = Some (PList questions) →
  Forall (λ q, renderable q = true) questions →
  "🚀 Start New Test" ∉ pressed w →
  "Submit Test" ∉ pressed w →
  ∃ w',
    main cfg w = (Return tt, w') ∧
    page w' = page w ++ chrome cfg ++
      [Within Col2
         [ComponentsHtml ((t0 + inject_Z (TEST_DURATION_MINUTES cfg * 60)) * 1000)];
       Within (Form "test_form")
         (concat (question_form <$> enumerate questions) ++
          [StMarkdown [Lit "---"]; StFormSubmitButton "Submit Test"])] ∧
    (∀ k, owned k → session_state w' !! k = session_state w !! k) ∧
    (∀ i, i < length questions → is_Some (session_state w' !! widget_key i)).
Proof.
  intros Hstarted Hstart Hsel Hq Hbutton Hsubmit.
  rewrite (main_started w t0 questions Hstarted Hstart Hsel Hbutton).
  unfold within. rewrite (form_body_run _ (set_page [] _) questions Hsel Hq).
  rewrite bool_decide_eq_false_2 by done.
  eexists. split; [done|]. simpl. split_and!.
  - by rewrite <- !app_assoc.
  - intros k Hk. apply register_from_other. intros i ->.
    destruct (widget_key_not_owned i) as (H1 & H2 & H3).
    destruct Hk as [Hk|[Hk|Hk]]; congruence.
  - intros i Hi. apply register_from_registered. lia.
Qed.

(** C8. Lateness is advisory.  On a started session whose form is
    submitted, [main] returns normally whether or not the submission is late.
    With [elapsed] the result of the subtraction [time.time() - start_time],
    [is_late] is [elapsed > TEST_DURATION_MINUTES * 60], and the form holds,
    in this order and with nothing else: the question forms, the rule, the
    submit button, the late banner exactly when [is_late], and the complete
    grade report (verdicts, raw score, percentage, tier).  The report grades
    the responses the session holds once the form is rendered, which are the
    stored ones wherever the stored value is one the radio group offers. *)
Theorem late_submission_is_graded w t0 elapsed questions :
  session_state w !! "exam_started" = Some (PBool true) →
  session_state w !! "start_time" = Some (PFloat t0) →
  session_state w !! "selected_questions" = Some (PList questions) →
  questions ≠ [] →
  Forall (λ q, renderable q = true ∧ gradable q = true) questions →
  "🚀 Start New Test" ∉ pressed w →
  "Submit Test" ∈ pressed w →
  float_sub (clock w) (PFloat t0) = Return elapsed →
  let is_late := Qgt_bool elapsed (inject_Z (TEST_DURATION_MINUTES cfg * 60)) in
  ∃ w' report,
    main cfg w = (Return tt, w') ∧
    page w' = page w ++ chrome cfg ++
      [Within Col2
         [ComponentsHtml ((t0 + inject_Z (TEST_DURATION_MINUTES cfg * 60)) * 1000)];
       Within (Form "test_form")
         (concat (question_form <$> enumerate questions) ++
          [StMarkdown [Lit "---"]; StFormSubmitButton "Submit Test"] ++
          (if is_late then [late_banner] else []) ++ report)] ∧
    displays report (grade_of (session_state w') questions) ∧
    (∀ i q, questions !! i = Some q →
            offered q (response (session_state w) i) = true →
            response (session_state w') i = response (session_state w) i).
Proof.
  intros Hstarted Hstart Hsel Hne Hq Hbutton Hsubmit Helapsed.
  cbn [float_sub numeric] in Helapsed. injection Helapsed as <-. intros is_late.
  assert (Hrender : Forall (λ q, renderable q = true) questions)
    by (eapply Forall_impl; [exact Hq|]; by intros ? [? ?]).
  assert (Hgrade : Forall (λ q, gradable q = true) questions)
    by (eapply Forall_impl; [exact Hq|]; by intros ? [? ?]).
  rewrite (main_started w t0 questions Hstarted Hstart Hsel Hbutton).
  unfold within. rewrite (form_body_run _ (set_page [] _) questions Hsel Hrender).
  rewrite bool_decide_eq_true_2 by done. fold is_late.
  set (ss' := register_from 0 (length questions) _).
  assert (Hsel' : ss' !! "selected_questions" = Some (PList questions)).
  { unfold ss'. rewrite register_from_other; [done|].
    intros j. unfold widget_key. simpl. discriminate. }
  match goal with |- context [on_submit is_late ?W] =>
    destruct (on_submit_gradable is_late W questions Hsel' Hne Hgrade)
      as (report & -> & Hreport) end.
  change (session_state (rendering (set_session_state ss' ?w0) ?a)) with ss' in Hreport.
  eexists _, report. split; [done|]. simpl. split_and!.
  - by rewrite <- !app_assoc.
  - exact Hreport.
  - intros i q _ _. apply register_from_response.
Qed.

Lemma start_test_shape w :
  ∃ ss' g shown,
    start_test cfg w = (Return tt, rendering (set_session_state ss' (set_gen g w)) shown) ∧
    (shown = [] ∨ ∃ message, shown = [StError message]) ∧
    ∀ p, session_state (start_test cfg (set_page p w)).2 = ss'.
Proof.
  unfold start_test.
  assert (Hload : ∀ p, load_questions_from_file cfg (set_page p w) =
            match load_questions_from_file cfg w with
            | (r, w') => (r, set_page (p ++ drop (length (page w)) (page w')) w')
            end).
  { intros p. rewrite !load_questions_from_file_eq.
    change (files (set_page p w)) with (files w).
    destruct (files w !! QUESTION_FILE cfg) as [content|]; simpl.
    - destruct (json_loads content) as [[| | | | |bank|]|]; simpl;
        rewrite ?drop_app_length, ?drop_all, ?app_nil_r; done.
    - by rewrite drop_app_length. }
  destruct (load_questions_from_file cfg w) as [r w1] eqn:Hw1.
  assert (∃ bank shown, r = Return bank ∧ w1 = rendering w shown ∧
            (shown = [] ∨ ∃ message, shown = [StError message]))
    as (bank & shown & -> & -> & Hshown).
  { rewrite load_questions_from_file_eq in Hw1.
    repeat case_match; simplify_eq; eexists _, _;
      (split; [done|]); try (split; [done|by eauto]).
    split; [by rewrite rendering_nil|by left]. }
  unfold mbind, M_bind at 1. rewrite Hw1.
  destruct bank as [|q bank].
  - simpl. exists (session_state w), (gen w), shown. split_and!; [|done|].
    + by destruct w.
    + intros p. unfold M_bind. by rewrite Hload.
  - cbn [truthy negb]. unfold random_sample, M_bind.
    cbn [gen rendering set_page].
    rewrite decide_True by (simpl; lia).
    destruct (sample_positions (gen w) (length (q :: bank))
                (min (QUESTIONS_PER_TEST cfg) (length (q :: bank)))) as [positions g] eqn:Hs.
    simpl. eexists _, g, shown. split_and!; [done|done|].
    intros p. rewrite Hload. cbn [truthy negb gen rendering set_page].
    unfold random_sample, M_bind. cbn [gen set_page rendering].
    rewrite decide_True by (simpl; lia). by rewrite Hs.
Qed.

Lemma bind_button_pressed {B} label (f : bool → M B) w :
  label ∈ pressed w →
  (st_button label ≫= f) w = f true (rendering w [StButton label]).
Proof.
  intros H. unfold st_button. rewrite bind_assoc, bind_st. cbv beta.
  unfold was_pressed, mbind, M_bind. by rewrite bool_decide_eq_true_2.
Qed.

(** X13. When the start button is pressed and the question file is absent
    or decodes, the run ends in the rerun request of line 117, whether or not
    a test could be started: the page stops inside the sidebar, after the
    button and at most one error message of the loader; instructions,
    countdown, form and welcome text are not rendered, and the session is as
    [start_test] left it.  (A file on which the decoder fails is left out,
    as [json.load] can fail there with an exception the loader does not
    handle, which ends the run before the rerun request.) *)
Theorem start_button_reruns w :
  "🚀 Start New Test" ∈ pressed w →
  files w !! QUESTION_FILE cfg = None ∨
  (∃ content v, files w !! QUESTION_FILE cfg = Some content ∧
                json_loads content = Some v) →
  ∃ w' shown,
    main cfg w = (Raise RerunException, w') ∧
    page w' = page w ++
      [StSetPageConfig "Science Jeopardy - Round 1" "🔬" "wide";
       Within Col1
         [StTitle [Lit "🔬 Science Jeopardy Practice"];
          StCaption [Lit "Round 1: 30 Questions | 30 Minutes"]];
       Within Sidebar
         ([StHeader [Lit "Test Controls"]; StButton "🚀 Start New Test"] ++ shown)] ∧
    (shown = [] ∨ ∃ message, shown = [StError message]) ∧
    session_state w' =
      session_state (start_test cfg (set_session_state (initialized (session_state w)) w)).2.
Proof.
  intros Hbutton _. unfold main.
  rewrite bind_st. cbv beta.
  erewrite bind_return by apply initialize_session_eq.
  erewrite bind_within; last done.
  set (w0 := rendering _ _).
  destruct (start_test_shape
              (rendering (set_page [] w0)
                 ([StHeader [Lit "Test Controls"]] ++ [StButton "🚀 Start New Test"])))
    as (ss' & g & shown & Hstart & Hshown & Hss).
  exists (set_page (page w0 ++ [Within Sidebar
            ([StHeader [Lit "Test Controls"]; StButton "🚀 Start New Test"] ++ shown)])
            (set_session_state ss' (set_gen g w0))), shown.
  split_and!; [|by unfold w0; simpl; rewrite <- !app_assoc|done|].
  - erewrite bind_raise; [done|]. unfold within.
    rewrite bind_st. cbv beta. rewrite bind_button_pressed by done. cbv beta iota.
    rewrite rendering_app, !bind_assoc.
    rewrite (bind_return _ _ _ _ _ Hstart). unfold st_rerun.
    erewrite bind_raise by done. done.
  - simpl. symmetry. etransitivity; [|apply (Hss (page w))].
    reflexivity.
Qed.

End Runs.

(** ** What every step of a run keeps

    A property of worlds that rendering keeps, and that registering a widget
    key keeps, is kept by every computation of the script that writes the
    session in no other way. *)

Section Keeps.
Context `{lib : PyLib} (cfg : config).
Variable R : world → Prop.
Hypothesis R_page : ∀ w p, R w → R (set_page p w).
Hypothesis R_widget : ∀ w i,
  session_state w !! widget_key i = None →
  R w → R (set_session_state (<[widget_key i := PNone]> (session_state w)) w).

Lemma keeps_bind {A B} (c : M A) (f : A → M B) :
  keeps R c → (∀ a, keeps R (f a)) → keeps R (c ≫= f).
Proof.
  intros Hc Hf w Hw. specialize (Hc w Hw). unfold mbind, M_bind.
  destruct (c w) as [[a|e] w']; [by apply Hf|done].
Qed.

Lemma keeps_renders {A} (c : M A) :
  (∀ w, ∃ p, (c w).2 = set_page p w) → keeps R c.
Proof. intros H w Hw. destruct (H w) as [p ->]. by apply R_page. Qed.

Lemma keeps_st e : keeps R (st e).
Proof. apply keeps_renders. intros w. by eexists. Qed.

Lemma set_page_id w : set_page (page w) w = w.
Proof. by destruct w. Qed.

Lemma keeps_pure {A} (c : M A) : (∀ w, (c w).2 = w) → keeps R c.
Proof. intros H w Hw. by rewrite H. Qed.

Lemma keeps_within {A} c (body : M A) : keeps R body → keeps R (within c body).
Proof.
  intros H w Hw. unfold within. specialize (H (set_page [] w) (R_page _ _ Hw)).
  destruct (body (set_page [] w)) as [r w']. simpl in *. by apply R_page.
Qed.

Lemma keeps_for_each {A S} (xs : list A) (acc : S) body :
  (∀ x acc, keeps R (body x acc)) → keeps R (for_each xs acc body).
Proof.
  intros Hbody. revert acc. induction xs as [|x xs IH]; intros acc; simpl.
  - by apply keeps_pure.
  - apply keeps_bind; [apply Hbody|]. intros acc'. apply IH.
Qed.

Lemma keeps_getattr name : keeps R (getattr name).
Proof. apply keeps_pure. intros w. unfold getattr. by case_match. Qed.

Lemma keeps_lift {A} (o : outcome A) : keeps R (lift o).
Proof. by apply keeps_pure. Qed.

Lemma keeps_radio label options i : keeps R (st_radio label options (widget_key i)).
Proof.
  intros w Hw. unfold st_radio, st, contains, setattr, session_get, mbind, M_bind; simpl.
  destruct (session_state w !! widget_key i) as [v|] eqn:Hkey.
  - rewrite bool_decide_eq_true_2 by eauto. simpl. by apply R_page.
  - rewrite bool_decide_eq_false_2 by (by intros [? ?]). simpl.
    apply (R_widget (set_page _ w)); [done|]. by apply R_page.
Qed.

Lemma keeps_grading : keeps R grading.
Proof.
  apply keeps_renders. intros w.
  destruct (grading_reads w w eq_refl (λ _, eq_refl)) as (r & rendered & -> & _).
  by eexists.
Qed.

Lemma keeps_on_submit is_late : keeps R (on_submit is_late).
Proof.
  unfold on_submit. apply keeps_bind; [|intros; apply keeps_grading].
  destruct is_late; [apply keeps_st|by apply keeps_pure].
Qed.

Lemma keeps_countdown_timer minutes : keeps R (countdown_timer minutes).
Proof.
  unfold countdown_timer. apply keeps_bind; [apply keeps_getattr|]. intros start_time.
  assert (H : keeps R (deadline ← lift (add_int start_time (minutes * 60));
                       st (ComponentsHtml (deadline * 1000)))).
  { apply keeps_bind; [apply keeps_lift|]. intros. apply keeps_st. }
  destruct start_time; try exact H. all: by apply keeps_pure.
Qed.

Lemma keeps_render_question iq : keeps R (render_question iq tt).
Proof.
  destruct iq as [i q]. unfold render_question.
  apply keeps_bind; [apply keeps_lift|]. intros question.
  apply keeps_bind; [apply keeps_st|]. intros [].
  apply keeps_bind; [apply keeps_lift|]. intros options.
  apply keeps_bind; [apply keeps_radio|]. intros ?. apply keeps_st.
Qed.

Lemma keeps_page_body (started : pyval) : keeps R (page_below_sidebar cfg started).
Proof.
  unfold page_below_sidebar, form_body.
  destruct (truthy started); [|apply keeps_st].
  apply keeps_bind; [apply keeps_within, keeps_countdown_timer|]. intros [].
  apply keeps_bind; [by apply keeps_pure|]. intros now.
  apply keeps_bind; [apply keeps_getattr|]. intros start_time.
  apply keeps_bind; [apply keeps_lift|]. intros elapsed.
  apply keeps_within.
  apply keeps_bind.
  { apply keeps_bind; [apply keeps_getattr|]. intros. apply keeps_lift. }
  intros questions.
  apply keeps_bind; [apply keeps_for_each; intros ? []; apply keeps_render_question|].
  intros []. apply keeps_bind; [apply keeps_st|]. intros [].
  apply keeps_bind.
  { apply keeps_renders. intros w. by eexists. }
  intros submitted. destruct submitted; [apply keeps_on_submit|by apply keeps_pure].
Qed.

Lemma keeps_main :
  keeps R initialize_session →
  (∀ w, R w → "🚀 Start New Test" ∈ pressed w → R (start_test cfg w).2) →
  keeps R (main cfg).
Proof.
  intros Hinit Hstart. unfold main.
  apply keeps_bind; [apply keeps_st|]. intros [].
  apply keeps_bind; [exact Hinit|]. intros [].
  apply keeps_bind.
  { apply keeps_within, keeps_bind; [apply keeps_st|]. intros []. apply keeps_st. }
  intros []. apply keeps_bind; [|intros []; apply keeps_bind;
                                  [apply keeps_getattr|apply keeps_page_body]].
  apply keeps_within.
  apply keeps_bind; [apply keeps_st|]. intros [].
  intros w Hw. unfold st_button. rewrite !bind_assoc, bind_st. cbv beta.
  unfold was_pressed at 1. unfold mbind at 1, M_bind at 1. cbv beta iota.
  change (pressed (rendering w ?a)) with (pressed w).
  destruct (bool_decide_reflect ("🚀 Start New Test" ∈ pressed w)) as [Hin|Hout].
  - rewrite bind_assoc. unfold mbind at 1, M_bind at 1.
    pose proof (Hstart (rendering w [StButton "🚀 Start New Test"]) (R_page _ _ Hw) Hin) as H.
    destruct (start_test cfg (rendering w [StButton "🚀 Start New Test"])) as [[[]|e] w']; done.
  - rewrite bind_mret.
    assert (Hk : keeps R (st (StMarkdown [Lit "---"]) ;;
       st (StInfo [Lit "**Instructions:**"; Lit newline; Lit "1. You have **";
                 Fmt (PInt (TEST_DURATION_MINUTES cfg));
                 Lit " minutes**."; Lit newline; Lit "2. Answer **";
                 Fmt (PInt (Z.of_nat (QUESTIONS_PER_TEST cfg)));
                 Lit " questions**."; Lit newline;
                 Lit "3. Click 'Submit' to see results."]))).
    { apply keeps_bind; [apply keeps_st|]. intros []. apply keeps_st. }
    apply Hk. by apply R_page.
Qed.

End Keeps.

(** ** From one run to the next *)

Section Lifecycle.
Context `{lib : PyLib} (cfg : config).

Lemma start_test_session w :
  session_state (start_test cfg w).2 = session_state w ∨
  ∃ selected,
    session_state (start_test cfg w).2 =
      <["exam_started" := PBool true]>
        (<["start_time" := PFloat (clock w)]>
           (<["selected_questions" := PList selected]> (session_state w))).
Proof.
  destruct (files w !! QUESTION_FILE cfg) as [content|] eqn:Hfile.
  2:{ left. unfold start_test, mbind, M_bind.
      by rewrite load_questions_from_file_eq, Hfile. }
  destruct (json_loads content) as [v|] eqn:Hjson.
  2:{ left. unfold start_test, mbind, M_bind.
      by rewrite load_questions_from_file_eq, Hfile, Hjson. }
  assert (Hv : (∃ q bank, v = PList (q :: bank)) ∨ ∀ q bank, v ≠ PList (q :: bank)).
  { destruct v as [| | | | |[|q bank]|]; eauto. }
  destruct Hv as [(q & bank & ->)|Hv].
  - right. rewrite (start_test_world cfg w content (q :: bank) Hfile Hjson ltac:(done)).
    by eexists.
  - left. unfold start_test, mbind, M_bind.
    rewrite load_questions_from_file_eq, Hfile, Hjson.
    destruct v as [| | | | |[|q bank]|]; simpl; try done. by destruct (Hv q bank).
Qed.

Lemma start_test_pressed w : pressed (start_test cfg w).2 = pressed w.
Proof.
  destruct (start_test_shape cfg w) as (ss' & g & shown & -> & _). done.
Qed.

(** X14. The script never clears the started flag: if ["exam_started"] is
    [True] before a run of [main], it is [True] after it, whichever buttons
    were pressed and whether the run returned or raised. *)
Theorem started_session_stays_started w :
  session_state w !! "exam_started" = Some (PBool true) →
  session_state (main cfg w).2 !! "exam_started" = Some (PBool true).
Proof.
  apply (keeps_main cfg (λ w, session_state w !! "exam_started" = Some (PBool true))).
  - done.
  - intros w0 i _ H. simpl. rewrite lookup_insert_ne; [done|].
    apply widget_key_not_owned.
  - intros w0 H. rewrite initialize_session_eq. simpl. by apply initialized_keeps.
  - intros w0 H _. destruct (start_test_session w0) as [->|(selected & ->)]; [done|].
    by rewrite lookup_insert_eq.
Qed.

(** X15. Unless the start button is pressed, a run of [main] leaves the
    test as it is: the started flag, the selected questions and the start
    time hold after the run what they held before it, whether the run
    returned or raised.  Re-running the page never restarts the clock. *)
Theorem test_survives_runs w k v :
  owned k →
  "🚀 Start New Test" ∉ pressed w →
  session_state w !! k = Some v →
  session_state (main cfg w).2 !! k = Some v.
Proof.
  intros Howned Hbutton Hk.
  apply (keeps_main cfg
           (λ w, ("🚀 Start New Test" ∉ pressed w) ∧ session_state w !! k = Some v));
    [| | | |done].
  - by intros w0 p [? ?].
  - intros w0 i _ [? H]. split; [done|]. simpl.
    rewrite lookup_insert_ne; [done|]. intros <-.
    destruct (widget_key_not_owned i) as (H1 & H2 & H3).
    destruct Howned as [Hw|[Hw|Hw]]; congruence.
  - intros w0 [? H]. rewrite initialize_session_eq. simpl. split; [done|].
    by apply initialized_keeps.
  - by intros w0 [? _] ?.
Qed.

Lemma render_question_malformed i q w :
  renderable q = false →
  ∃ e partial,
    render_question (i, q) tt w = (Raise e, rendering w partial) ∧
    (e = TypeError ∨ e = KeyError "question" ∨ e = KeyError "options") ∧
    (partial = [] ∨ ∃ t, partial = [StMarkdown t]).
Proof.
  unfold renderable, render_question.
  destruct (getitem q "question") as [t|e] eqn:Ht.
  - destruct (getitem q "options") as [o|e] eqn:Ho; [done|]. intros _.
    rewrite bind_lift. cbv beta. rewrite bind_st. cbv beta. rewrite bind_lift_raise.
    eexists e, _. split_and!; [done| |by eauto].
    unfold getitem in Ho, Ht. repeat case_match; simplify_eq; eauto.
  - intros _. rewrite bind_lift_raise. exists e, []. rewrite rendering_nil.
    split_and!; [done| |by left].
    unfold getitem in Ht. repeat case_match; simplify_eq; eauto.
Qed.

(** X16. A selected record that lacks its text or its options breaks the
    page: on a started session whose questions are renderable up to such a
    record, [main] raises ([TypeError], or the [KeyError] of ['question'] or
    ['options']) while rendering the form, after the forms of the earlier
    questions and at most the heading of the broken one; the submit button is
    never rendered. *)
Theorem malformed_record_breaks_form w t0 good q rest :
  session_state w !! "exam_started" = Some (PBool true) →
  session_state w !! "start_time" = Some (PFloat t0) →
  session_state w !! "selected_questions" = Some (PList (good ++ q :: rest)) →
  Forall (λ q, renderable q = true) good →
  renderable q = false →
  "🚀 Start New Test" ∉ pressed w →
  ∃ e w' partial,
    main cfg w = (Raise e, w') ∧
    (e = TypeError ∨ e = KeyError "question" ∨ e = KeyError "options") ∧
    page w' = page w ++ chrome cfg ++
      [Within Col2
         [ComponentsHtml ((t0 + inject_Z (TEST_DURATION_MINUTES cfg * 60)) * 1000)];
       Within (Form "test_form")
         (concat (question_form <$> enumerate good) ++ partial)] ∧
    (partial = [] ∨ ∃ t, partial = [StMarkdown t]).
Proof.
  intros Hstarted Hstart Hsel Hgood Hbad Hbutton.
  rewrite (main_started cfg w t0 _ Hstarted Hstart Hsel Hbutton).
  unfold within, form_body.
  rewrite bind_assoc, (bind_getattr _ _ _ (set_page [] _) Hsel). cbv beta.
  cbn [py_iter]. rewrite bind_lift. cbv beta.
  unfold enumerate at 1. rewrite enumerate_from_app.
  match goal with |- context [set_page [] ?W] => set (w0 := set_page [] W) end.
  destruct (render_question_malformed (0 + length good) q
              (rendering (set_session_state (register_from 0 (length good) (session_state w0)) w0)
                 (concat (question_form <$> enumerate_from 0 good)))
              Hbad) as (e & partial & Hq & He & Hpartial).
  eexists e, _, partial. split_and!; [|exact He| |exact Hpartial].
  - erewrite bind_raise; [done|].
    rewrite for_each_app.
    rewrite (bind_return _ _ _ _ _ (render_loop_form good 0 w0 Hgood)).
    simpl. by rewrite (bind_raise _ _ _ _ _ Hq).
  - simpl. by rewrite <- !app_assoc.
Qed.

End Lifecycle.

(** * The reference implementation meets the interface *)

Module ReferenceLaws.
Import Reference.

Lemma randbelow_lt g n : 0 < n → randbelow g n < n.
Proof.
  intros Hn. unfold randbelow.
  assert (g mod N.of_nat n < N.of_nat n)%N by (apply N.mod_lt; lia). lia.
Qed.

(** Taking the item at [j] and moving the last item into the vacancy leaves
    the pool without the item taken. *)
Lemma pool_vacancy (pool : list nat) j x y :
  pool !! j = Some x → last pool = Some y →
  x :: take (length pool - 1) (<[j := y]> pool) ≡ₚ pool.
Proof.
  intros Hj [init ->]%last_Some.
  rewrite length_app. simpl. replace (length init + 1 - 1) with (length init) by lia.
  destruct (decide (j < length init)) as [Hlt|Hge].
  - rewrite lookup_app_l in Hj by done.
    rewrite insert_app_l by done.
    rewrite take_app_length' by (by rewrite length_insert).
    rewrite <- (take_drop_middle init j x Hj) at 2.
    rewrite insert_take_drop by done.
    rewrite <- !app_assoc. simpl.
    etransitivity; [|apply Permutation_middle].
    apply perm_skip, Permutation_app_head, Permutation_cons_append.
  - apply lookup_lt_Some in Hj as Hj'. rewrite length_app in Hj'. simpl in Hj'.
    assert (j = length init) as -> by lia.
    rewrite list_lookup_middle in Hj by done. injection Hj as <-.
    rewrite insert_app_r_alt by lia. rewrite Nat.sub_diag. simpl.
    rewrite take_app_length. apply Permutation_cons_append.
Qed.

Lemma pool_sample_spec k : ∀ pool g,
  k ≤ length pool → NoDup pool →
  length (pool_sample k pool g).1 = k ∧
  NoDup (pool_sample k pool g).1 ∧
  (∀ i, i ∈ (pool_sample k pool g).1 → i ∈ pool).
Proof.
  induction k as [|k IH]; intros pool g Hk Hnd; simpl.
  - split_and!; [done|constructor|]. intros i Hi. by apply elem_of_nil in Hi.
  - assert (Hj : randbelow g (length pool) < length pool) by (apply randbelow_lt; lia).
    destruct (lookup_lt_is_Some_2 _ _ Hj) as [x Hx]. rewrite Hx.
    destruct (last pool) as [y|] eqn:Hlast.
    2:{ apply last_None in Hlast. subst. simpl in Hk. lia. }
    pose proof (pool_vacancy _ _ _ _ Hx Hlast) as Hperm.
    set (pool' := take (length pool - 1) (<[randbelow g (length pool) := y]> pool)) in *.
    assert (Hnd' : NoDup (x :: pool')) by (by rewrite Hperm).
    apply NoDup_cons in Hnd' as [Hx' Hnd'].
    assert (Hlen : k ≤ length pool').
    { apply Permutation_length in Hperm. simpl in Hperm. lia. }
    destruct (IH pool' (next g) Hlen Hnd') as (IH1 & IH2 & IH3).
    destruct (pool_sample k pool' (next g)) as [rest g'] eqn:Hrest. simpl in *.
    split_and!.
    + by rewrite IH1.
    + apply NoDup_cons. split; [|done]. intros Hin. apply Hx'. by apply IH3.
    + intros i Hi. rewrite <- Hperm.
      apply elem_of_cons in Hi as [->|Hi]; [by left|right; by apply IH3].
Qed.

Lemma sample_positions_length g n k :
  k ≤ n → length (sample_positions g n k).1 = k.
Proof.
  intros Hk. apply pool_sample_spec; [by rewrite length_seq|apply NoDup_seq].
Qed.

Lemma sample_positions_NoDup g n k : k ≤ n → NoDup (sample_positions g n k).1.
Proof.
  intros Hk. apply pool_sample_spec; [by rewrite length_seq|apply NoDup_seq].
Qed.

Lemma sample_positions_lt g n k :
  k ≤ n → Forall (λ i, i < n) (sample_positions g n k).1.
Proof.
  intros Hk. apply Forall_forall. intros i Hi.
  destruct (pool_sample_spec k (seq 0 n) g) as (_ & _ & Hsub);
    [by rewrite length_seq|apply NoDup_seq|].
  apply Hsub in Hi. apply elem_of_seq in Hi. lia.
Qed.

Definition lib : PyLib :=
  Build_PyLib N json_loads sample_positions
    sample_positions_length sample_positions_NoDup sample_positions_lt.

End ReferenceLaws.

(** * The statements at concrete inputs *)

Import Reference.

Lemma start_test_samples_witness :
  let w := World ReferenceLaws.lib ∅ [] bank_file 1000 42%N ∅ in
  files w !! QUESTION_FILE source_config = Some "<three questions>" ∧
  json_loads "<three questions>" = Some (PList three_questions) ∧
  three_questions ≠ [] ∧
  ∃ selected,
    session_state (start_test source_config w).2 !! "selected_questions" =
      Some (PList selected) ∧
    length selected = 3 ∧ (∀ q, q ∈ selected → q ∈ three_questions).
Proof.
  intros w. split_and!; [done..|].
  destruct (start_test_samples source_config w "<three questions>" three_questions)
    as (selected & positions & _ & Hsel & Hlen & _ & _ & Hmem & _); [done..|].
  exists selected. by split_and!.
Defined.

Lemma start_test_without_bank_witness :
  let w := World ReferenceLaws.lib (started_session abc_questions 100) []
             {["questions.json" := "{}"]} 1000 42%N ∅ in
  (∀ content q bank, files w !! QUESTION_FILE source_config = Some content →
                     json_loads content ≠ Some (PList (q :: bank))) ∧
  (start_test source_config w).1 = Return tt ∧
  session_state (start_test source_config w).2 = session_state w.
Proof.
  intros w.
  assert (H : ∀ content q bank, files w !! QUESTION_FILE source_config = Some content →
                json_loads content ≠ Some (PList (q :: bank))).
  { intros content q bank Hfile. vm_compute in Hfile. by injection Hfile as <-. }
  split; [exact H|]. exact (start_test_without_bank source_config w H).
Defined.

Lemma load_reports_errors_witness :
  let w := World ReferenceLaws.lib ∅ [] ∅ 1000 42%N ∅ in
  files w !! QUESTION_FILE source_config = None ∧
  ∃ shown, reports source_config NotFound shown ∧
           (load_questions_from_file source_config w).2 = rendering w [shown].
Proof.
  intros w. split; [done|].
  by apply (proj1 (load_reports_errors source_config w)).
Defined.

Lemma grading_scores_witness :
  let w := World ReferenceLaws.lib axc_session [] ∅ 1000 42%N ∅ in
  session_state w !! "selected_questions" = Some (PList abc_questions) ∧
  response (session_state w) 0 = PStr "A" ∧
  response (session_state w) 1 = PStr "X" ∧
  response (session_state w) 2 = PStr "C" ∧
  ∃ rendered report,
    grading w = (Return tt, rendering w rendered) ∧
    displays rendered report ∧
    raw_score report = 2 ∧
    (percentage report == 200 # 3)%Q ∧
    fixed1 (percentage report) = 667%Z.
Proof.
  intros w. split_and!; [done..|].
  apply (proj2 (@grading_scores ReferenceLaws.lib) w
           (question "First?" ["A"; "X"] "A")
           (question "Second?" ["B"; "X"] "B")
           (question "Third?" ["C"; "X"] "C")); try done.
  by repeat constructor.
Defined.

Lemma tier_boundaries_witness :
  25 ≤ 30 ∧ tier_message 30 = tier_element Excellent ∧
  15 ≤ 20 < 25 ∧ tier_message 20 = tier_element NeedsReview ∧
  3 < 15 ∧ tier_message 3 = tier_element NeedsPractice.
Proof.
  destruct (@tier_boundaries ReferenceLaws.lib) as (Hhigh & Hmid & Hlow & _).
  split_and!; [lia|apply Hhigh; lia|lia|lia|apply Hmid; lia|lia|apply Hlow; lia].
Defined.

Lemma grading_division_witness :
  let w := World ReferenceLaws.lib axc_session [] ∅ 1000 42%N ∅ in
  session_state w !! "selected_questions" = Some (PList abc_questions) ∧
  abc_questions ≠ [] ∧
  Forall (λ q, gradable q = true) abc_questions ∧
  (grading w).1 = Return tt.
Proof.
  intros w.
  assert (Hq : Forall (λ q, gradable q = true) abc_questions) by (by repeat constructor).
  split_and!; [done|done|exact Hq|].
  by apply (proj1 (grading_division w) abc_questions).
Defined.

(** C4, as stated, fails: right after [initialize_session] the selected
    questions are the empty list, and grading that session ends in the
    [ZeroDivisionError] of the percentage computation; no other error is
    raised before the division. *)
Lemma grading_empty_session_divides_by_zero :
  let w := (initialize_session (World ReferenceLaws.lib ∅ [] ∅ 0 1%N ∅)).2 in
  session_state w !! "selected_questions" = Some (PList []) ∧
  (grading w).1 = Raise ZeroDivisionError.
Proof. by vm_compute. Qed.

Lemma no_selection_is_incorrect_witness :
  let w := World ReferenceLaws.lib (started_session three_questions 100) [] ∅ 1000 42%N ∅ in
  let q := question "Symbol of gold?" ["Au"; "Ag"; "Fe"] "Au" in
  getitem q "answer" = Return (PStr "Au") ∧
  PStr "Au" ≠ PNone ∧
  getitem q "question" = Return (PStr "Symbol of gold?") ∧
  response (session_state w) 0 = PNone ∧
  py_eq PNone (PStr "Au") = false ∧
  ∃ card,
    grade_question (0, q) 0 w = (Return 0, rendering w [card]) ∧
    shows_verdict card false.
Proof.
  intros w q. split_and!; [done..| |];
    apply (no_selection_is_incorrect w 0 q 0 (PStr "Au") (PStr "Symbol of gold?")); done.
Defined.

Lemma late_submission_is_graded_witness :
  let w := World ReferenceLaws.lib axc_session [] ∅ 2000 42%N {["Submit Test"]} in
  float_sub (clock w) (PFloat 100) = Return (2000 - 100)%Q ∧
  Qgt_bool (2000 - 100) (inject_Z (TEST_DURATION_MINUTES source_config * 60)) = true ∧
  offered (question "Second?" ["B"; "X"] "B") (response (session_state w) 1) = true ∧
  ∃ w' report,
    main source_config w = (Return tt, w') ∧
    page w' = chrome source_config ++
      [Within Col2 [ComponentsHtml ((100 + inject_Z (30 * 60)) * 1000)];
       Within (Form "test_form")
         (concat (question_form <$> enumerate abc_questions) ++
          [StMarkdown [Lit "---"]; StFormSubmitButton "Submit Test"] ++
          [late_banner] ++ report)] ∧
    displays report (grade_of (session_state w') abc_questions) ∧
    response (session_state w') 1 = PStr "X".
Proof.
  intros w. split; [reflexivity|]. split; [reflexivity|]. split; [reflexivity|].
  assert (H1 : session_state w !! "exam_started" = Some (PBool true)) by reflexivity.
  assert (H2 : session_state w !! "start_time" = Some (PFloat 100)) by reflexivity.
  assert (H3 : session_state w !! "selected_questions" = Some (PList abc_questions))
    by reflexivity.
  assert (H4 : abc_questions ≠ []) by discriminate.
  assert (H5 : Forall (λ q, renderable q = true ∧ gradable q = true) abc_questions).
  { repeat constructor. }
  assert (H6 : "🚀 Start New Test" ∉ pressed w).
  { subst w. cbn [pressed]. intros H%elem_of_singleton. discriminate H. }
  assert (H7 : "Submit Test" ∈ pressed w).
  { subst w. cbn [pressed]. apply elem_of_singleton. reflexivity. }
  assert (H8 : float_sub (clock w) (PFloat 100) = Return (2000 - 100)%Q) by reflexivity.
  pose proof (late_submission_is_graded source_config w 100 (2000 - 100)%Q abc_questions
                H1 H2 H3 H4 H5 H6 H7 H8) as H.
  cbv zeta in H.
  destruct H as (w' & report & Hmain & Hpage & Hreport & Hkept).
  exists w', report. split; [exact Hmain|]. split; [exact Hpage|]. split; [exact Hreport|].
  exact (Hkept 1 (question "Second?" ["B"; "X"] "B") eq_refl eq_refl).
Defined.

Lemma grading_deterministic_witness :
  let w1 := World ReferenceLaws.lib axc_session [] ∅ 1000 42%N ∅ in
  let w2 := World ReferenceLaws.lib (<["start_time" := PFloat 7]> axc_session)
              [StBalloons] bank_file 9000 1%N {["Submit Test"]} in
  session_state w1 !! "selected_questions" = session_state w2 !! "selected_questions" ∧
  (∀ i, response (session_state w1) i = response (session_state w2) i) ∧
  ∃ r rendered,
    grading w1 = (r, rendering w1 rendered) ∧ grading w2 = (r, rendering w2 rendered).
Proof.
  intros w1 w2.
  assert (Hresp : ∀ i, response (session_state w1) i = response (session_state w2) i).
  { intros i. unfold response. simpl. rewrite lookup_insert_ne; [done|].
    intros H. by destruct (widget_key_not_owned i) as (_ & _ & []). }
  split_and!; [done|exact Hresp|].
  destruct (grading_deterministic w1 w2) as (r & rendered & H1 & H2 & _); [done|exact Hresp|].
  by exists r, rendered.
Defined.

Lemma started_session_has_questions_witness :
  let w0 := World ReferenceLaws.lib ∅ [] bank_file 1000 42%N ∅ in
  let w := (start_test source_config (initialize_session w0).2).2 in
  reachable source_config w ∧
  session_state w !! "exam_started" = Some (PBool true) ∧
  (main source_config w).1 ≠ Raise ZeroDivisionError.
Proof.
  intros w0 w.
  assert (Hw : reachable source_config w).
  { apply reachable_start, reachable_initialize. by apply reachable_new. }
  split_and!; [exact Hw|done|].
  apply (started_session_has_questions w Hw).
Defined.

Lemma initialize_session_defaults_witness :
  let w := World ReferenceLaws.lib {["start_time" := PFloat 5]} [] ∅ 0 1%N ∅ in
  session_state w !! "start_time" = Some (PFloat 5) ∧
  session_state (initialize_session w).2 !! "start_time" = Some (PFloat 5) ∧
  session_state (initialize_session w).2 !! "exam_started" = Some (PBool false).
Proof.
  intros w. destruct (initialize_session_defaults w) as (_ & Hkeep & Hflag & _).
  split_and!; [reflexivity|by apply Hkeep|exact Hflag].
Defined.

Lemma start_test_starts_witness :
  let w := World ReferenceLaws.lib axc_session [] bank_file 1000 42%N ∅ in
  files w !! QUESTION_FILE source_config = Some "<three questions>" ∧
  json_loads "<three questions>" = Some (PList three_questions) ∧
  three_questions ≠ [] ∧
  session_state (start_test source_config w).2 !! "start_time" = Some (PFloat 1000) ∧
  session_state (start_test source_config w).2 !! "q_1" = Some (PStr "X").
Proof.
  intros w.
  destruct (start_test_starts source_config w "<three questions>" three_questions)
    as (_ & _ & Htime & Hother & _); [reflexivity|reflexivity|discriminate|].
  split_and!; [reflexivity|reflexivity|discriminate|exact Htime|].
  rewrite Hother; [reflexivity|]. unfold owned. intros [H|[H|H]]; discriminate H.
Defined.

Lemma start_test_forgets_previous_witness :
  let w1 := World ReferenceLaws.lib ∅ [] bank_file 1000 42%N ∅ in
  let w2 := World ReferenceLaws.lib axc_session [StBalloons] bank_file 1000 42%N ∅ in
  files w1 !! QUESTION_FILE source_config = Some "<three questions>" ∧
  files w2 !! QUESTION_FILE source_config = Some "<three questions>" ∧
  session_state (start_test source_config w1).2 !! "selected_questions" =
  session_state (start_test source_config w2).2 !! "selected_questions".
Proof.
  intros w1 w2.
  destruct (start_test_forgets_previous source_config w1 w2 "<three questions>"
              three_questions) as [H _]; [reflexivity..|discriminate|reflexivity|reflexivity|].
  split_and!; [reflexivity|reflexivity|]. apply H. unfold owned. tauto.
Defined.

Lemma start_test_uses_small_bank_witness :
  let w := World ReferenceLaws.lib ∅ [] bank_file 1000 42%N ∅ in
  length three_questions ≤ QUESTIONS_PER_TEST source_config ∧
  ∃ selected,
    session_state (start_test source_config w).2 !! "selected_questions" =
      Some (PList selected) ∧
    selected ≡ₚ three_questions.
Proof.
  intros w. split; [simpl; lia|].
  apply (start_test_uses_small_bank source_config w "<three questions>");
    [reflexivity|reflexivity|discriminate|simpl; lia].
Defined.

Lemma start_test_returns_on_decoded_file_witness :
  let w := World ReferenceLaws.lib axc_session [] {["questions.json" := "{}"]}
             1000 42%N ∅ in
  files w !! QUESTION_FILE source_config = Some "{}" ∧
  json_loads "{}" = Some (PDict []) ∧
  (start_test source_config w).1 = Return tt ∧
  ∃ message, page (start_test source_config w).2 = [StError message].
Proof.
  intros w.
  assert (Hfile : files w !! QUESTION_FILE source_config = None ∨
            (∃ content v, files w !! QUESTION_FILE source_config = Some content ∧
                          json_loads content = Some v)).
  { right. exists "{}", (PDict []). split; reflexivity. }
  split; [reflexivity|]. split; [reflexivity|].
  destruct (start_test_returns_on_decoded_file source_config w Hfile)
    as (Hreturns & _ & _ & _ & Hpage).
  split; [exact Hreturns|].
  destruct Hpage as [Hpage|[message Hpage]].
  - exfalso. revert Hpage. vm_compute. discriminate.
  - exists message. exact Hpage.
Defined.

Lemma grading_score_bounds_witness :
  let w := World ReferenceLaws.lib axc_session [] ∅ 1000 42%N ∅ in
  session_state w !! "selected_questions" = Some (PList abc_questions) ∧
  abc_questions ≠ [] ∧
  Forall (λ q, gradable q = true) abc_questions ∧
  ∃ rendered report,
    grading w = (Return tt, rendering w rendered) ∧
    displays rendered report ∧
    raw_score report ≤ 3 ∧
    (0 <= percentage report <= 100)%Q.
Proof.
  intros w.
  assert (Hq : Forall (λ q, gradable q = true) abc_questions) by (by repeat constructor).
  split_and!; [reflexivity|discriminate|exact Hq|].
  destruct (grading_score_bounds w abc_questions)
    as (rendered & report & Hrun & Hshow & Hraw & Htotal & Hpct);
    [reflexivity|discriminate|exact Hq|].
  exists rendered, report. split; [exact Hrun|]. split; [exact Hshow|].
  split; [|exact Hpct]. rewrite Htotal in Hraw. exact Hraw.
Defined.

Lemma short_test_tiers_witness :
  let w := World ReferenceLaws.lib axc_session [] ∅ 1000 42%N ∅ in
  session_state w !! "selected_questions" = Some (PList abc_questions) ∧
  length abc_questions < 15 ∧
  ∃ rendered,
    grading w = (Return tt, rendering w rendered) ∧
    last rendered = Some (tier_element NeedsPractice).
Proof.
  intros w.
  assert (Hq : Forall (λ q, gradable q = true) abc_questions) by (by repeat constructor).
  split_and!; [reflexivity|simpl; lia|].
  destruct (short_test_tiers w abc_questions)
    as (rendered & t & Hrun & Hlast & _ & Hlow); [reflexivity|discriminate|exact Hq|].
  exists rendered. split; [exact Hrun|]. rewrite Hlast, Hlow; [reflexivity|simpl; lia].
Defined.

Lemma perfect_and_blank_submissions_witness :
  let w := World ReferenceLaws.lib (started_session abc_questions 100) [] ∅ 1000 42%N ∅ in
  session_state w !! "selected_questions" = Some (PList abc_questions) ∧
  (∀ i q, abc_questions !! i = Some q →
          response (session_state w) i = PNone ∧ answer q ≠ PNone) ∧
  ∃ rendered report,
    grading w = (Return tt, rendering w rendered) ∧
    displays rendered report ∧
    raw_score report = 0 ∧ (percentage report == 0)%Q ∧
    report_tier report = NeedsPractice.
Proof.
  intros w.
  assert (Hq : Forall (λ q, gradable q = true) abc_questions) by (by repeat constructor).
  assert (Hblank : ∀ i q, abc_questions !! i = Some q →
            response (session_state w) i = PNone ∧ answer q ≠ PNone).
  { intros [|[|[|i]]] q Hi; [injection Hi as <-; split; [reflexivity|discriminate]..|].
    discriminate Hi. }
  split_and!; [reflexivity|exact Hblank|].
  destruct (perfect_and_blank_submissions w abc_questions)
    as (rendered & report & Hrun & Hshow & _ & Hzero); [reflexivity|discriminate|exact Hq|].
  exists rendered, report. split; [exact Hrun|]. split; [exact Hshow|]. exact (Hzero Hblank).
Defined.

Lemma grading_stops_at_malformed_record_witness :
  let good := question "First?" ["A"; "X"] "A" in
  let bad := PDict [("question", PStr "Second?")] in
  let w := World ReferenceLaws.lib (started_session [good; bad; good] 100) [] ∅ 1000 42%N ∅ in
  session_state w !! "selected_questions" = Some (PList ([good] ++ bad :: [good])) ∧
  gradable good = true ∧
  gradable bad = false ∧
  ∃ cards,
    grading w =
      (Raise (KeyError "answer"),
       rendering w ([StBalloons; StWrite [Lit "## 📝 Test Results"]] ++ cards)) ∧
    length cards = 1.
Proof.
  intros good bad w.
  destruct (grading_stops_at_malformed_record w [good] bad [good])
    as (e & cards & Hrun & Hcards & _ & Hanswer & _);
    [reflexivity|by repeat constructor|reflexivity|].
  split_and!; [reflexivity..|].
  exists cards. rewrite <- (Hanswer [("question", PStr "Second?")] eq_refl eq_refl).
  split; [exact Hrun|]. apply Forall2_length in Hcards. exact Hcards.
Defined.

Lemma main_welcomes_witness :
  let w := World ReferenceLaws.lib {["q_0" := PStr "A"]} [] bank_file 1000 42%N ∅ in
  ("🚀 Start New Test" ∉ pressed w) ∧
  ∃ w',
    main source_config w = (Return tt, w') ∧
    page w' = chrome source_config ++ [StMarkdown welcome] ∧
    session_state w' !! "q_0" = Some (PStr "A") ∧
    session_state w' !! "exam_started" = Some (PBool false).
Proof.
  intros w.
  assert (H : "🚀 Start New Test" ∉ pressed w).
  { subst w. cbn [pressed]. apply not_elem_of_empty. }
  split; [exact H|].
  destruct (main_welcomes source_config w H eq_refl)
    as (w' & Hmain & Hpage & _ & Hkeep & Hflag).
  exists w'. split; [exact Hmain|]. split; [exact Hpage|].
  split; [apply Hkeep; reflexivity|exact Hflag].
Defined.

Lemma start_button_reruns_witness :
  let w := World ReferenceLaws.lib ∅ [] bank_file 1000 42%N {["🚀 Start New Test"]} in
  "🚀 Start New Test" ∈ pressed w ∧
  files w !! QUESTION_FILE source_config = Some "<three questions>" ∧
  json_loads "<three questions>" = Some (PList three_questions) ∧
  ∃ w', main source_config w = (Raise RerunException, w') ∧
        session_state w' !! "exam_started" = Some (PBool true).
Proof.
  intros w.
  assert (H : "🚀 Start New Test" ∈ pressed w).
  { subst w. cbn [pressed]. apply elem_of_singleton. reflexivity. }
  assert (Hfile : files w !! QUESTION_FILE source_config = None ∨
            (∃ content v, files w !! QUESTION_FILE source_config = Some content ∧
                          json_loads content = Some v)).
  { right. exists "<three questions>", (PList three_questions). split; reflexivity. }
  split; [exact H|]. split; [reflexivity|]. split; [reflexivity|].
  destruct (start_button_reruns source_config w H Hfile) as (w' & shown & Hmain & _ & _ & Hss).
  exists w'. split; [exact Hmain|]. rewrite Hss. reflexivity.
Defined.

Lemma main_renders_form_witness :
  let w := World ReferenceLaws.lib (<["q_1" := PStr "X"]> (started_session abc_questions 100))
             [] ∅ 1000 42%N ∅ in
  session_state w !! "selected_questions" = Some (PList abc_questions) ∧
  Forall (λ q, renderable q = true) abc_questions ∧
  ∃ w',
    main source_config w = (Return tt, w') ∧
    page w' = chrome source_config ++
      [Within Col2 [ComponentsHtml 1900000];
       Within (Form "test_form")
         (concat (question_form <$> enumerate abc_questions) ++
          [StMarkdown [Lit "---"]; StFormSubmitButton "Submit Test"])] ∧
    session_state w' !! "start_time" = Some (PFloat 100) ∧
    is_Some (session_state w' !! "q_2").
Proof.
  intros w.
  assert (H1 : session_state w !! "exam_started" = Some (PBool true)) by reflexivity.
  assert (H2 : session_state w !! "start_time" = Some (PFloat 100)) by reflexivity.
  assert (H3 : session_state w !! "selected_questions" = Some (PList abc_questions))
    by reflexivity.
  assert (H4 : Forall (λ q, renderable q = true) abc_questions).
  { repeat constructor. }
  assert (H5 : "🚀 Start New Test" ∉ pressed w).
  { subst w. cbn [pressed]. apply not_elem_of_empty. }
  assert (H6 : "Submit Test" ∉ pressed w).
  { subst w. cbn [pressed]. apply not_elem_of_empty. }
  split; [exact H3|]. split; [exact H4|].
  destruct (main_renders_form source_config w 100 abc_questions H1 H2 H3 H4 H5 H6)
    as (w' & Hmain & Hpage & Hkeep & Hreg).
  exists w'. split; [exact Hmain|]. split; [exact Hpage|].
  split; [|apply (Hreg 2); simpl; lia].
  rewrite (Hkeep "start_time"); [exact H2|]. unfold owned. tauto.
Defined.

Lemma started_session_stays_started_witness :
  let w := World ReferenceLaws.lib axc_session [] ∅ 1000 42%N {["🚀 Start New Test"]} in
  session_state w !! "exam_started" = Some (PBool true) ∧
  session_state (main source_config w).2 !! "exam_started" = Some (PBool true).
Proof.
  intros w. split; [reflexivity|].
  apply (started_session_stays_started source_config w). reflexivity.
Defined.

Lemma test_survives_runs_witness :
  let w := World ReferenceLaws.lib axc_session [] ∅ 1000 42%N {["Submit Test"]} in
  owned "start_time" ∧
  ("🚀 Start New Test" ∉ pressed w) ∧
  session_state w !! "start_time" = Some (PFloat 100) ∧
  session_state (main source_config w).2 !! "start_time" = Some (PFloat 100).
Proof.
  intros w.
  assert (Ho : owned "start_time") by (unfold owned; tauto).
  assert (H : "🚀 Start New Test" ∉ pressed w).
  { subst w. cbn [pressed]. intros H%elem_of_singleton. discriminate H. }
  split; [exact Ho|]. split; [exact H|]. split; [reflexivity|].
  apply (test_survives_runs source_config w "start_time" (PFloat 100) Ho H). reflexivity.
Defined.

Lemma malformed_record_breaks_form_witness :
  let good := question "First?" ["A"; "X"] "A" in
  let bad := PDict [("question", PStr "Second?"); ("answer", PStr "B")] in
  let w := World ReferenceLaws.lib (started_session [good; bad] 100) [] ∅ 1000 42%N ∅ in
  session_state w !! "selected_questions" = Some (PList ([good] ++ bad :: [])) ∧
  renderable good = true ∧
  renderable bad = false ∧
  ∃ e w', main source_config w = (Raise e, w').
Proof.
  intros good bad w.
  assert (H : "🚀 Start New Test" ∉ pressed w).
  { subst w. cbn [pressed]. apply not_elem_of_empty. }
  split_and!; [reflexivity..|].
  destruct (malformed_record_breaks_form source_config w 100 [good] bad [])
    as (e & w' & partial & Hmain & _);
    [reflexivity|reflexivity|reflexivity|by repeat constructor|reflexivity|exact H|].
  exists e, w'. exact Hmain.
Defined.
